(** * Orchestrator.run_chat: the orchestration control loop

    A shallow embedding of
    [samples/tools/autogenbench/scenarios/GAIA/Templates/Orchestrator/orchestrator.py].

    Python values coming out of [json.loads] are an inductive type with the
    Python operations the orchestrator applies to them (subscripting, item
    assignment, truth value, [==], [>], [>=]); exceptions are explicit
    results.  The body of [run_chat] is written in a small state and
    control monad whose outcomes are the ones a Python loop body has: fall
    through, [break], [return] and a raised exception.  The completion
    client, [json.loads], [extract_code] and the workers are external to the
    file and are the fields of an environment record. *)

From Stdlib Require Import ZArith List String Ascii Bool Lia.
Import ListNotations.

Local Open Scope Z_scope.
Local Open Scope list_scope.
#[local] Set Warnings "-register-all".

(** ** Python values and exceptions *)

Module Py.

(** The exceptions the modelled statements can raise. *)
Inductive exc : Type :=
| KeyError
| TypeError
| IndexError
| AttributeError
| UnboundLocalError.

(** What [json.loads] can return.  A JSON object is a [dict], kept in
    insertion order; floating-point numbers are outside the model, a JSON
    number is an [int]. *)
Inductive json : Type :=
| JNull
| JBool (b : bool)
| JInt (n : Z)
| JStr (s : string)
| JArr (l : list json)
| JObj (kvs : list (string * json)).

Definition result (A : Type) : Type := (exc + A)%type.
Definition ok {A : Type} (a : A) : result A := inr a.
Definition throw {A : Type} (e : exc) : result A := inl e.

Fixpoint assoc (k : string) (kvs : list (string * json)) : option json :=
  match kvs with
  | [] => None
  | (k', v) :: rest => if String.eqb k k' then Some v else assoc k rest
  end.

Fixpoint assoc_set (k : string) (v : json) (kvs : list (string * json))
  : list (string * json) :=
  match kvs with
  | [] => [(k, v)]
  | (k', v') :: rest =>
      if String.eqb k k' then (k, v) :: rest else (k', v') :: assoc_set k v rest
  end.

(** [d[k]] for a string key [k]. *)
Definition getitem (d : json) (k : string) : result json :=
  match d with
  | JObj kvs => match assoc k kvs with
                | Some v => ok v
                | None => throw KeyError
                end
  | _ => throw TypeError
  end.

(** [d[k] = v] for a string key [k]; the dict is updated in place. *)
Definition setitem (d : json) (k : string) (v : json) : result json :=
  match d with
  | JObj kvs => ok (JObj (assoc_set k v kvs))
  | _ => throw TypeError
  end.

(** [d[k]["answer"]], the access pattern of every field of a response. *)
Definition answer (d : json) (k : string) : result json :=
  match getitem d k with
  | inr f => getitem f "answer"
  | inl e => throw e
  end.

(** The truth value of [v] in an [if]. *)
Definition truthy (v : json) : bool :=
  match v with
  | JNull => false
  | JBool b => b
  | JInt n => negb (n =? 0)
  | JStr s => negb (String.eqb s "")
  | JArr l => match l with [] => false | _ :: _ => true end
  | JObj kvs => match kvs with [] => false | _ :: _ => true end
  end.

(** [bool] is a subclass of [int]. *)
Definition as_int (v : json) : option Z :=
  match v with
  | JInt n => Some n
  | JBool b => Some (Z.b2z b)
  | _ => None
  end.

(** [a == b]. *)
Fixpoint py_eq (a b : json) {struct a} : bool :=
  match a, b with
  | JNull, JNull => true
  | JBool x, JBool y => Bool.eqb x y
  | JBool x, JInt y => Z.b2z x =? y
  | JInt x, JBool y => x =? Z.b2z y
  | JInt x, JInt y => x =? y
  | JStr x, JStr y => String.eqb x y
  | JArr xs, JArr ys =>
      (fix go (xs ys : list json) {struct xs} : bool :=
         match xs, ys with
         | [], [] => true
         | x :: xs', y :: ys' => py_eq x y && go xs' ys'
         | _, _ => false
         end) xs ys
  | JObj xs, JObj ys =>
      Nat.eqb (List.length xs) (List.length ys) &&
      (fix go (xs : list (string * json)) {struct xs} : bool :=
         match xs with
         | [] => true
         | (k, v) :: xs' =>
             match assoc k ys with
             | Some w => py_eq v w
             | None => false
             end && go xs'
         end) xs
  | _, _ => false
  end.

(** [a > b] when [strict], [a >= b] otherwise.  Numbers compare by value,
    strings and lists lexicographically; every other pair of types raises
    [TypeError]. *)
Fixpoint py_order (strict : bool) (a b : json) {struct a} : result bool :=
  match a, b with
  | JArr xs, JArr ys =>
      (fix go (xs ys : list json) {struct xs} : result bool :=
         match xs, ys with
         | x :: xs', y :: ys' =>
             if py_eq x y then go xs' ys' else py_order strict x y
         | [], [] => ok (negb strict)
         | [], _ :: _ => ok false
         | _ :: _, [] => ok true
         end) xs ys
  | JStr x, JStr y =>
      ok (if strict then String.ltb y x else String.leb y x)
  | _, _ =>
      match as_int a, as_int b with
      | Some x, Some y => ok (if strict then y <? x else y <=? x)
      | _, _ => throw TypeError
      end
  end.

Definition py_gt : json -> json -> result bool := py_order true.
Definition py_ge : json -> json -> result bool := py_order false.

(** [x in l] for a string [x] and a list [l] of values. *)
Definition str_in (x : string) (l : list json) : bool :=
  existsb (py_eq (JStr x)) l.

End Py.

Import Py.

Arguments py_eq : simpl never.
Arguments py_order : simpl never.
Arguments answer : simpl never.

(** ** Messages, team and checkpoints *)

(** The content of a message: a Python value, or one of the prompts that
    [run_chat] builds with an f-string, kept as the template and the values
    interpolated into it. *)
Inductive content : Type :=
| Val (v : json)
| ClosedBookPrompt (task : content)
| PlanPrompt (team : string)
| Briefing (task : content) (team facts plan : string)
| StepPromptFast (task : content)
| StepPrompt (task : content) (team names : string)
| RevisePlanPrompt (prev_evaluation data : json) (plan team : string)
| NewPlanMessage (new_plan : string)
| EducatedGuessPrompt (facts : string)
| NewFactsPrompt (facts : string)
| HistoryPlanPrompt (history : list (string * json * json)) (team : string).

(** The fields of the JSON schema a prompt asks the oracle to fill in (lines
    210-223, 270-291 and 407-412). *)
Definition requested_fields (c : content) : list string :=
  match c with
  | StepPromptFast _ =>
      ["is_request_satisfied"; "is_progress_being_made"; "current_evaluation"]%string
  | StepPrompt _ _ _ =>
      ["is_request_satisfied"; "is_progress_being_made"; "current_evaluation";
       "next_speaker"; "instruction_or_question"]%string
  | EducatedGuessPrompt _ => ["has_educated_guesses"]%string
  | _ => []
  end.

Record message : Type := mkMessage {
  msg_role : string;
  msg_content : content;
  msg_name : string
}.

(** A member of [self._agents]; [code_execution_config_is_dict] is
    [isinstance(a._code_execution_config, dict)]. *)
Record agent : Type := mkAgent {
  name : string;
  description : string;
  code_execution_config_is_dict : bool
}.

Record checkpoint : Type := mkCheckpoint {
  cp_plan : string;
  cp_evaluation : json;
  cp_response : json
}.

(** Calls that leave the orchestrator, in the order they are made, with
    what they returned.  Agents are identified by their position in
    [self._agents]. *)
Inductive event : Type :=
| EReset (a : nat)
| ESend (m : message) (a : nat) (silent : bool)
| ECreate (messages : list message) (json_format : bool) (response : string)
| EGenerateReply (a : nat) (reply : json)
| EAgentSend (a : nat) (reply : message).

(** What is external to the file.  [json_loads text] is [json.loads(text)],
    [None] when it raises [JSONDecodeError]; [extract_code] is
    [autogen.code_utils.extract_code]; [oracle n messages json_format] is the
    text extracted from the response of the [n]-th call of
    [self.client.create], [json_format] telling whether
    [response_format={"type": "json_object"}] was passed;
    [generate_reply n a] is what the [n]-th call of [generate_reply], made on
    agent [a], returns.  [_oai_messages] is [self._oai_messages[sender]].
    The external calls are taken to return: what they may raise themselves
    is not part of the model. *)
Record env : Type := mkEnv {
  json_loads : string -> option json;
  extract_code : content -> list (string * string);
  oracle : nat -> list message -> bool -> string;
  generate_reply : nat -> nat -> json;
  self_name : string;
  client_is_none : bool;
  _agents : list agent;
  _oai_messages : list message
}.

(** ** State *)

(** The attributes of [self] and the local variables of [run_chat] that
    change while the loops run.  [educated_guess_promt] is [None] as long
    as the local variable is unbound.  [n_create] and [n_reply] count the
    calls made to the client and to [generate_reply]; [trace] records every
    call that leaves the orchestrator.  What [_print_thought] prints is not
    recorded; the expressions it is given are evaluated where they can
    raise. *)
Record state : Type := mkState {
  _checkpoints : list checkpoint;
  orchestrated_messages : list message;
  facts : string;
  plan : string;
  total_turns : Z;
  times_stalled : Z;
  stalled_count : Z;
  educated_guess_promt : option content;
  n_create : nat;
  n_reply : nat;
  trace : list event
}.

Definition set_checkpoints (v : list checkpoint) (s : state) : state :=
  mkState v (orchestrated_messages s) (facts s) (plan s) (total_turns s)
    (times_stalled s) (stalled_count s) (educated_guess_promt s)
    (n_create s) (n_reply s) (trace s).

Definition set_orchestrated_messages (v : list message) (s : state) : state :=
  mkState (_checkpoints s) v (facts s) (plan s) (total_turns s)
    (times_stalled s) (stalled_count s) (educated_guess_promt s)
    (n_create s) (n_reply s) (trace s).

Definition set_facts (v : string) (s : state) : state :=
  mkState (_checkpoints s) (orchestrated_messages s) v (plan s) (total_turns s)
    (times_stalled s) (stalled_count s) (educated_guess_promt s)
    (n_create s) (n_reply s) (trace s).

Definition set_plan (v : string) (s : state) : state :=
  mkState (_checkpoints s) (orchestrated_messages s) (facts s) v (total_turns s)
    (times_stalled s) (stalled_count s) (educated_guess_promt s)
    (n_create s) (n_reply s) (trace s).

Definition set_total_turns (v : Z) (s : state) : state :=
  mkState (_checkpoints s) (orchestrated_messages s) (facts s) (plan s) v
    (times_stalled s) (stalled_count s) (educated_guess_promt s)
    (n_create s) (n_reply s) (trace s).

Definition set_times_stalled (v : Z) (s : state) : state :=
  mkState (_checkpoints s) (orchestrated_messages s) (facts s) (plan s)
    (total_turns s) v (stalled_count s) (educated_guess_promt s)
    (n_create s) (n_reply s) (trace s).

Definition set_stalled_count (v : Z) (s : state) : state :=
  mkState (_checkpoints s) (orchestrated_messages s) (facts s) (plan s)
    (total_turns s) (times_stalled s) v (educated_guess_promt s)
    (n_create s) (n_reply s) (trace s).

Definition set_educated_guess_promt (v : option content) (s : state) : state :=
  mkState (_checkpoints s) (orchestrated_messages s) (facts s) (plan s)
    (total_turns s) (times_stalled s) (stalled_count s) v
    (n_create s) (n_reply s) (trace s).

Definition set_n_create (v : nat) (s : state) : state :=
  mkState (_checkpoints s) (orchestrated_messages s) (facts s) (plan s)
    (total_turns s) (times_stalled s) (stalled_count s)
    (educated_guess_promt s) v (n_reply s) (trace s).

Definition set_n_reply (v : nat) (s : state) : state :=
  mkState (_checkpoints s) (orchestrated_messages s) (facts s) (plan s)
    (total_turns s) (times_stalled s) (stalled_count s)
    (educated_guess_promt s) (n_create s) v (trace s).

Definition emit (evs : list event) (s : state) : state :=
  mkState (_checkpoints s) (orchestrated_messages s) (facts s) (plan s)
    (total_turns s) (times_stalled s) (stalled_count s)
    (educated_guess_promt s) (n_create s) (n_reply s) (trace s ++ evs).

(** ** The monad of a loop body *)

(** The [return] statements of [run_chat], by the line they are on. *)
Inductive return_site : Type :=
| NoClient          (* line 81 *)
| Satisfied         (* line 381 *)
| EducatedGuess     (* line 433 *)
| BudgetExhausted.  (* line 495 *)

(** The value each [return] statement gives back. *)
Definition return_value (r : return_site) : bool * option string :=
  match r with
  | NoClient => (false, None)
  | Satisfied => (true, Some "TERMINATE"%string)
  | EducatedGuess => (true, Some "TERMINATE"%string)
  | BudgetExhausted => (true, Some "TERMINATE"%string)
  end.

Inductive flow (A : Type) : Type :=
| Next (a : A) (s : state)
| Break (s : state)
| Return (r : return_site) (s : state)
| Raise (e : exc) (s : state).

Arguments Next {A} a s.
Arguments Break {A} s.
Arguments Return {A} r s.
Arguments Raise {A} e s.

Definition M (A : Type) : Type := state -> flow A.

Definition ret {A : Type} (a : A) : M A := fun s => Next a s.

Definition bind {A B : Type} (m : M A) (k : A -> M B) : M B :=
  fun s =>
    match m s with
    | Next a s' => k a s'
    | Break s' => Break s'
    | Return r s' => Return r s'
    | Raise e s' => Raise e s'
    end.

Declare Scope orch_scope.
Delimit Scope orch_scope with orch.
Notation "x <- m ;; k" := (bind m (fun x => k))
  (at level 61, m at next level, right associativity) : orch_scope.
Notation "m ;; k" := (bind m (fun _ => k))
  (at level 61, right associativity) : orch_scope.
Local Open Scope orch_scope.

Definition gets {A : Type} (f : state -> A) : M A := fun s => Next (f s) s.
Definition modify (f : state -> state) : M unit := fun s => Next tt (f s).
Definition break_ {A : Type} : M A := fun s => Break s.
Definition return_ {A : Type} (r : return_site) : M A := fun s => Return r s.
Definition raise {A : Type} (e : exc) : M A := fun s => Raise e s.

(** A Python expression that either has a value or raises. *)
Definition eval {A : Type} (r : result A) : M A :=
  match r with
  | inr a => ret a
  | inl e => raise e
  end.

Definition out_state {A : Type} (f : flow A) : state :=
  match f with
  | Next _ s => s
  | Break s => s
  | Return _ s => s
  | Raise _ s => s
  end.

(** ** The body of the loops *)

Definition last_opt {A : Type} (l : list A) : option A :=
  match l with
  | [] => None
  | x :: rest => Some (last rest x)
  end.

(** [l[-n:]]. *)
Definition lastn {A : Type} (n : nat) (l : list A) : list A :=
  skipn (List.length l - n) l.

(** [all(e >= l[i+1] for i, e in enumerate(l[:-1]))]; [all] stops at the
    first comparison that is false. *)
Fixpoint non_increasing (l : list json) : result bool :=
  match l with
  | e :: ((e' :: _) as rest) =>
      match py_ge e e' with
      | inr true => non_increasing rest
      | inr false => ok false
      | inl x => throw x
      end
  | _ => ok true
  end.

(** The sends of [_broadcast], agent by agent from position [i].  [exclude]
    holds agent objects ([exclude=[a]] is the one use), so an agent is
    skipped by identity, the agents of the list being distinct objects;
    [out_loud] holds the value of [data["next_speaker"]["answer"]], which an
    agent's name may equal.  The message sent is [message] itself, not the
    copy made at line 55. *)
Fixpoint broadcast_from (i : nat) (agents : list agent) (m : message)
    (out_loud : list json) (exclude : list nat) : list event :=
  match agents with
  | [] => []
  | a :: rest =>
      (if existsb (Nat.eqb i) exclude then []
       else [ESend m i (negb (str_in (name a) out_loud))])
      ++ broadcast_from (S i) rest m out_loud exclude
  end.

(** The first agent of the [for] loop of line 487 whose name equals
    [speaker], with its position. *)
Fixpoint find_speaker (i : nat) (agents : list agent) (speaker : json)
  : option (nat * agent) :=
  match agents with
  | [] => None
  | a :: rest =>
      if py_eq (JStr (name a)) speaker then Some (i, a)
      else find_speaker (S i) rest speaker
  end.

Definition nl : string := String "010"%char EmptyString.

Definition max_turns : Z := 30.

Section Loop.

Variable E : env.
Variable sender_name : string.
Variable task : content.

Definition team : string :=
  String.concat nl
    (map (fun a => (name a ++ ": " ++ description a)%string) (_agents E)).

Definition names : string := String.concat ", " (map name (_agents E)).

Definition execution_enabled_agents : list agent :=
  filter code_execution_config_is_dict (_agents E).

(** [self.client.create(messages=messages, ...)] and the text extracted
    from the response. *)
Definition create (messages : list message) (json_format : bool) : M string :=
  fun s =>
    let response := oracle E (n_create s) messages json_format in
    Next response
         (emit [ECreate messages json_format response]
            (set_n_create (S (n_create s)) s)).

Definition append_message (m : message) : M unit :=
  modify (fun s => set_orchestrated_messages (orchestrated_messages s ++ [m]) s).

Definition pop_message : M unit :=
  fun s =>
    match orchestrated_messages s with
    | [] => Raise IndexError s
    | _ :: _ =>
        Next tt (set_orchestrated_messages (removelast (orchestrated_messages s)) s)
    end.

Definition create_orchestrated (json_format : bool) : M string :=
  messages <- gets orchestrated_messages ;;
  create messages json_format.

(** A prompt put to the oracle over the conversation so far: appended to
    [orchestrated_messages] for the call and popped again. *)
Definition ask (prompt : content) (json_format : bool) : M string :=
  append_message (mkMessage "user" prompt sender_name) ;;
  response <- create_orchestrated json_format ;;
  pop_message ;;
  ret response.

Definition _broadcast (m : message) (out_loud : list json) (exclude : list nat)
  : M unit :=
  modify (emit (broadcast_from 0 (_agents E) m out_loud exclude)).

Definition save_checkpoint (p : string) (evaluation response : json) : M unit :=
  modify (fun s =>
    set_checkpoints (_checkpoints s ++ [mkCheckpoint p evaluation response]) s).

Definition forced_reason : json :=
  JStr "Assigning to an agent that can execute the script.".

Definition execute_instruction : json := JStr "Please execute the above script.".

(** Lines 197-249: code is present and an agent can execute it. *)
Definition fast_path : M json :=
  extracted_response <- ask (StepPromptFast task) true ;;
  match json_loads E extracted_response with
  | Some data =>
      match execution_enabled_agents with
      | a0 :: _ =>
          data <- eval (setitem data "next_speaker"
                    (JObj [("reason"%string, forced_reason);
                           ("answer"%string, JStr (name a0))])) ;;
          eval (setitem data "instruction_or_question"
                    (JObj [("reason"%string, forced_reason);
                           ("answer"%string, execute_instruction)]))
      | [] => raise IndexError
      end
  | None => break_
  end.

(** Lines 251-371: the oracle chooses the speaker; a revised plan is asked
    for and the assessment is made a second time. *)
Definition normal_path : M json :=
  let step_prompt := StepPrompt task team names in
  extracted_response <- ask step_prompt true ;;
  match json_loads E extracted_response with
  | None => break_
  | Some data =>
      prev_message <- eval (answer data "instruction_or_question") ;;
      prev_evaluation <- eval (answer data "current_evaluation") ;;
      p <- gets plan ;;
      new_plan <- ask (RevisePlanPrompt prev_evaluation data p team) false ;;
      _broadcast (mkMessage "user" (NewPlanMessage new_plan) (self_name E)) [] [] ;;
      extracted_response <- ask step_prompt true ;;
      match json_loads E extracted_response with
      | None => break_
      | Some data2 =>
          _ <- eval (answer data "instruction_or_question") ;;
          _ <- eval (answer data2 "instruction_or_question") ;;
          _ <- eval (answer data "current_evaluation") ;;
          _ <- eval (answer data2 "current_evaluation") ;;
          e2 <- eval (answer data2 "current_evaluation") ;;
          e1 <- eval (answer data "current_evaluation") ;;
          better <- eval (py_gt e2 e1) ;;
          if better then modify (set_plan new_plan) ;; ret data2
          else ret data
      end
  end.

(** Line 193: [[t for t in extract_code(prev_message) if t[0] in ["python", "sh"]]]. *)
Definition code_blocks (prev_message : content) : list (string * string) :=
  filter (fun t => String.eqb (fst t) "python" || String.eqb (fst t) "sh")
         (extract_code E prev_message).

(** Lines 192-371. *)
Definition decide : M json :=
  messages <- gets orchestrated_messages ;;
  match last_opt messages with
  | None => raise IndexError
  | Some m =>
      let prev_message := msg_content m in
      if (0 <? Z.of_nat (List.length (code_blocks prev_message)))
         && (0 <? Z.of_nat (List.length execution_enabled_agents))
      then fast_path
      else normal_path
  end.

(** Lines 373-388. *)
Definition record_checkpoint (data : json) : M unit :=
  p <- gets plan ;;
  evaluation <- eval (answer data "current_evaluation") ;;
  response <- eval (answer data "instruction_or_question") ;;
  save_checkpoint p evaluation response ;;
  satisfied <- eval (answer data "is_request_satisfied") ;;
  if truthy satisfied then return_ Satisfied
  else
    progress <- eval (answer data "is_progress_being_made") ;;
    if truthy progress
    then modify (fun s => set_stalled_count (Z.max (stalled_count s - 1) 0) s)
    else modify (fun s => set_stalled_count (stalled_count s + 1) s).

(** Lines 449-474: the plan rewritten from the whole history, the
    checkpoints cleared, the round left. *)
Definition full_replan : M unit :=
  cps <- gets _checkpoints ;;
  append_message
    (mkMessage "user"
       (HistoryPlanPrompt
          (map (fun cp => (cp_plan cp, cp_evaluation cp, cp_response cp)) cps)
          team)
       sender_name) ;;
  new_plan <- create_orchestrated false ;;
  modify (set_plan new_plan) ;;
  modify (set_checkpoints []) ;;
  break_.

(** Lines 414-474.  They are indented under the test of line 394, not under
    [if times_stalled >= 2:], so they read [educated_guess_promt] whether or
    not line 399 has bound it. *)
Definition escalate : M unit :=
  bound <- gets educated_guess_promt ;;
  match bound with
  | None => raise UnboundLocalError
  | Some prompt =>
      extracted_response <- ask prompt true ;;
      match json_loads E extracted_response with
      | None => break_
      | Some data =>
          guess <- eval (answer data "has_educated_guesses") ;;
          if truthy guess then return_ EducatedGuess
          else
            f <- gets facts ;;
            append_message (mkMessage "user" (NewFactsPrompt f) sender_name) ;;
            new_facts <- create_orchestrated false ;;
            modify (set_facts new_facts) ;;
            append_message
              (mkMessage "assistant" (Val (JStr new_facts)) (self_name E)) ;;
            full_replan
      end
  end.

(** Lines 390-474. *)
Definition check_stagnation : M unit :=
  cps <- gets _checkpoints ;;
  if 3 <=? Z.of_nat (List.length cps) then
    let last_evaluations := map cp_evaluation (lastn 3 cps) in
    stagnant <- eval (non_increasing last_evaluations) ;;
    if stagnant then
      modify (fun s => set_times_stalled (times_stalled s + 1) s) ;;
      stalled <- gets times_stalled ;;
      (if 2 <=? stalled
       then f <- gets facts ;;
            modify (set_educated_guess_promt (Some (EducatedGuessPrompt f)))
       else ret tt) ;;
      escalate
    else ret tt
  else ret tt.

(** Lines 478-479: [if m["content"] is None: m["content"] = ""]. *)
Definition none_to_empty (v : json) : json :=
  match v with
  | JNull => JStr ""
  | _ => v
  end.

(** Lines 476-493. *)
Definition delegate (data : json) : M unit :=
  instruction <- eval (answer data "instruction_or_question") ;;
  let c := none_to_empty instruction in
  speaker <- eval (answer data "next_speaker") ;;
  _broadcast (mkMessage "user" (Val c) (self_name E)) [speaker] [] ;;
  append_message (mkMessage "assistant" (Val c) (self_name E)) ;;
  match find_speaker 0 (_agents E) speaker with
  | Some (i, a) =>
      n <- gets n_reply ;;
      let r := generate_reply E n i in
      modify (fun s => emit [EGenerateReply i r] (set_n_reply (S n) s)) ;;
      let reply := mkMessage "user" (Val r) (name a) in
      append_message reply ;;
      modify (emit [EAgentSend i reply]) ;;
      _broadcast reply [] [i]
  | None => ret tt
  end.

(** One iteration of the inner loop, lines 190-493. *)
Definition turn : M unit :=
  modify (fun s => set_total_turns (total_turns s + 1) s) ;;
  data <- decide ;;
  record_checkpoint data ;;
  check_stagnation ;;
  delegate data.

(** Lines 163-188: what the outer loop does before it enters the inner
    one. *)
Definition round_init (s : state) : state :=
  let s := set_orchestrated_messages [] s in
  let s := emit (map EReset (seq 0 (List.length (_agents E)))) s in
  let briefing :=
    mkMessage "assistant" (Briefing task team (facts s) (plan s)) (self_name E) in
  let s := set_orchestrated_messages (orchestrated_messages s ++ [briefing]) s in
  let s := emit (broadcast_from 0 (_agents E) briefing [] []) s in
  set_stalled_count 0 s.

(** ** The two loops as a machine

    A configuration is the head of the outer [while], the head of the inner
    [while], or the end of [run_chat] by a [return] or an exception. *)
Inductive config : Type :=
| AtOuter (s : state)
| AtInner (s : state)
| Finished (o : exc + return_site) (s : state).

Definition step (c : config) : config :=
  match c with
  | AtOuter s =>
      if total_turns s <? max_turns then AtInner (round_init s)
      else Finished (inr BudgetExhausted) s
  | AtInner s =>
      if total_turns s <? max_turns then
        match turn s with
        | Next _ s' => AtInner s'
        | Break s' => AtOuter s'
        | Return r s' => Finished (inr r) s'
        | Raise e s' => Finished (inl e) s'
        end
      else AtOuter s
  | Finished o s => Finished o s
  end.

Fixpoint exec (fuel : nat) (c : config) : config :=
  match fuel with
  | O => c
  | S fuel' => exec fuel' (step c)
  end.

Definition config_state (c : config) : state :=
  match c with
  | AtOuter s => s
  | AtInner s => s
  | Finished _ s => s
  end.

End Loop.

(** ** run_chat *)

(** [l.pop()]: the list without its last element, and that element. *)
Definition pop {A : Type} (l : list A) : option (list A * A) :=
  match last_opt l with
  | Some x => Some (removelast l, x)
  | None => None
  end.

(** Enough steps for any run: two per turn and three more. *)
Definition run_fuel : nat := 63.

Definition initial_state (cps : list checkpoint) (om : list message) : state :=
  mkState cps om "" "" 0 0 0 None 0 0 [].

(** Lines 130-155: the fact sheet and the first plan. *)
Definition bootstrap (E : env) (sender_name : string) (task : content)
    (_messages : list message) : M unit :=
  let _messages :=
    _messages ++ [mkMessage "user" (ClosedBookPrompt task) sender_name] in
  extracted_response <- create E _messages false ;;
  let _messages :=
    _messages ++ [mkMessage "assistant" (Val (JStr extracted_response))
                    (self_name E)] in
  modify (set_facts extracted_response) ;;
  let _messages :=
    _messages ++ [mkMessage "user" (PlanPrompt (team E)) sender_name] in
  extracted_response <- create E _messages false ;;
  modify (set_plan extracted_response).

(** Lines 80-160, up to the first test of the outer loop: either the call
    has ended already, or the loops start with this sender name, task and
    state.  [cps] and [om] are [self._checkpoints] and
    [self.orchestrated_messages] when the call is made; [sender] is the
    sender's name, [None] when there is no sender. *)
Definition enter (E : env) (cps : list checkpoint) (om : list message)
    (messages : option (list message)) (sender : option string)
  : ((exc + return_site) * state) + (string * content * state) :=
  let s0 := initial_state cps om in
  if client_is_none E then inl (inr NoClient, s0)
  else
    let messages :=
      match messages with
      | Some l => l
      | None => _oai_messages E
      end in
    match pop messages with
    | None => inl (inl IndexError, s0)
    | Some (_messages, task_message) =>
        let task := msg_content task_message in
        match sender with
        | None => inl (inl AttributeError, s0)
        | Some sender_name =>
            inr (sender_name, task,
                 out_state (bootstrap E sender_name task _messages s0))
        end
    end.

(** [run_chat(self, messages, sender)]: how the call ended and the state it
    ended in; [None] would be a run that [run_fuel] steps do not finish. *)
Definition run_chat (E : env) (cps : list checkpoint) (om : list message)
    (messages : option (list message)) (sender : option string)
  : option ((exc + return_site) * state) :=
  match enter E cps om messages sender with
  | inl r => Some r
  | inr (sender_name, task, s) =>
      match exec E sender_name task run_fuel (AtOuter s) with
      | Finished o s' => Some (o, s')
      | _ => None
      end
  end.

(** ** Concrete runs *)

Module Scenario.

Definition field (v : json) : json :=
  JObj [("reason"%string, JStr ""); ("answer"%string, v)].

(** A response to the five-field assessment prompt. *)
Definition assessment (satisfied progress : bool) (evaluation : Z)
    (speaker instruction : string) : json :=
  JObj [("is_request_satisfied"%string, field (JBool satisfied));
        ("is_progress_being_made"%string, field (JBool progress));
        ("current_evaluation"%string, field (JInt evaluation));
        ("next_speaker"%string, field (JStr speaker));
        ("instruction_or_question"%string, field (JStr instruction))].

Definition guess (b : bool) : json :=
  JObj [("has_educated_guesses"%string, field (JBool b))].

(** The response texts of the runs below stand for JSON documents; this is
    what [json.loads] makes of each.  Any other text does not parse. *)
Definition documents : list (string * json) :=
  [("flat 50"%string, assessment false false 50 "Solver" "Try again.");
   ("done 150"%string, assessment true true 150 "Solver" "Report.");
   ("low 40"%string, assessment false true 40 "Solver" "First idea.");
   ("high 60"%string, assessment false true 60 "Nobody" "Second idea.");
   ("run it"%string, assessment false true 70 "Solver" "Think about it.");
   ("no guess"%string, guess false)].

Definition loads (text : string) : option json := assoc text documents.

Definition solver : agent := mkAgent "Solver" "Solves problems." false.
Definition runner : agent := mkAgent "Runner" "Runs scripts." true.

Definition script_env (agents : list agent) (script : list string)
    (code : content -> list (string * string)) : env :=
  mkEnv loads code (fun n _ _ => nth n script "not json"%string)
        (fun _ _ => JStr "A reply.") "Orchestrator" false agents [].

Definition no_code (c : content) : list (string * string) := [].

Definition task : content := Val (JStr "What is 2+2?").
Definition request : list message := [mkMessage "user" task "User"].

(** Three turns whose assessments all rate the request at 50. *)
Definition flat_env : env :=
  script_env [solver]
    ["facts"; "plan";
     "flat 50"; "plan A"; "flat 50";
     "flat 50"; "plan B"; "flat 50";
     "flat 50"; "plan C"; "flat 50"]%string no_code.

(** Every answer is text that does not parse. *)
Definition garbled_env : env := script_env [solver] [] no_code.

(** The first turn rates the request at 150 and reports it satisfied. *)
Definition overrated_env : env :=
  script_env [solver] ["facts"; "plan"; "done 150"; "plan A"; "done 150"]%string
    no_code.

(** A second candidate rated above the first; its speaker is not on the
    team. *)
Definition improving_env : env :=
  script_env [solver] ["low 40"; "plan A"; "high 60"]%string no_code.

(** Two turns, every rating between 1 and 100; then nothing parses. *)
Definition rated_env : env :=
  script_env [solver] ["facts"; "plan"; "low 40"; "plan A"; "high 60";
                       "run it"; "plan B"; "run it"]%string no_code.

(** A team with an executor, and a last message that always holds a
    script. *)
Definition script_block (c : content) : list (string * string) :=
  [("python"%string, "print(2 + 2)"%string)].

Definition runner_env : env :=
  script_env [solver; runner] ["run it"]%string script_block.

Definition no_client_env : env :=
  mkEnv loads no_code (fun _ _ _ => ""%string) (fun _ _ => JNull)
        "Orchestrator" true [solver] [].

Definition briefing : message :=
  mkMessage "assistant" (Briefing task "Solver: Solves problems." "facts" "plan")
            "Orchestrator".

(** The head of a round's first turn. *)
Definition round_start : state :=
  mkState [] [briefing] "facts" "plan" 0 0 0 None 0 0 [].

(** Two flat checkpoints behind and one non-improving window already
    counted; the local [educated_guess_promt] has not been assigned. *)
Definition stalled_once : state :=
  mkState [mkCheckpoint "plan" (JInt 50) (JStr "Try again.");
           mkCheckpoint "plan" (JInt 50) (JStr "Try again.")]
          [briefing] "facts" "plan" 4 1 2 None 0 0 [].

(** A third flat turn from there, once its checkpoint is recorded. *)
Definition recorded : state :=
  mkState [mkCheckpoint "plan" (JInt 50) (JStr "Try again.");
           mkCheckpoint "plan" (JInt 50) (JStr "Try again.");
           mkCheckpoint "plan" (JInt 50) (JStr "Try again.")]
          [briefing] "facts" "plan" 5 1 3 None 3 0 [].

(** That turn, with a parsed "no" to the educated-guess question. *)
Definition replan_env : env :=
  script_env [solver]
    ["flat 50"; "plan A"; "flat 50"; "no guess"; "new facts"; "new plan"]%string
    no_code.

End Scenario.

(** ** The vocabulary of the properties *)

(** [keeps R m]: however [m] ends, the state it ends in is related by [R] to
    the one it started in. *)
Definition keeps {A : Type} (R : state -> state -> Prop) (m : M A) : Prop :=
  forall s, R s (out_state (m s)).

(** [same f]: the field [f] is what it was. *)
Definition same {A : Type} (f : state -> A) : state -> state -> Prop :=
  fun s s' => f s' = f s.

(** The events of [self.send]. *)
Definition is_send (e : event) : bool :=
  match e with
  | ESend _ _ _ => true
  | _ => false
  end.

(** The oracle's answer to [prompt], asked in state [s], and the state the
    question leaves behind. *)
Definition reply_to (E : env) (sender_name : string) (s : state)
    (prompt : content) (json_format : bool) : string :=
  oracle E (n_create s)
    (orchestrated_messages s ++ [mkMessage "user" prompt sender_name])
    json_format.

Definition asked (E : env) (sender_name : string) (s : state)
    (prompt : content) (json_format : bool) : state :=
  emit [ECreate (orchestrated_messages s ++ [mkMessage "user" prompt sender_name])
          json_format (reply_to E sender_name s prompt json_format)]
       (set_n_create (S (n_create s)) s).

(** The budget holds at a loop head. *)
Definition within_budget (c : config) : Prop :=
  0 <= total_turns (config_state c) <= max_turns.

(** Turns left, and a bound on the steps a configuration is from the end of
    the run. *)
Definition remaining (s : state) : nat := Z.to_nat (max_turns - total_turns s).

Definition distance (c : config) : nat :=
  match c with
  | AtOuter s =>
      match remaining s with
      | O => 1
      | S _ => 2 * remaining s + 3
      end
  | AtInner s => 2 * remaining s + 2
  | Finished _ _ => 0
  end.

(** A run that has left by line 495 has used every turn. *)
Definition exhausted_at_cap (c : config) : Prop :=
  within_budget c /\
  forall s, c = Finished (inr BudgetExhausted) s -> total_turns s = max_turns.

(** Every score the oracle gives in an answer that parses satisfies [P]. *)
Definition oracle_scores (E : env) (P : json -> Prop) : Prop :=
  forall n messages d v,
    json_loads E (oracle E n messages true) = Some d ->
    answer d "current_evaluation" = ok v ->
    P v.

Definition checkpoint_scores (P : json -> Prop) (cps : list checkpoint) : Prop :=
  Forall (fun cp => P (cp_evaluation cp)) cps.

Definition scores_kept (P : json -> Prop) (s s' : state) : Prop :=
  checkpoint_scores P (_checkpoints s) -> checkpoint_scores P (_checkpoints s').

(** An evaluation as the assessment prompts ask for it: an integer from 1 to
    100. *)
Definition score_in_range (v : json) : Prop :=
  exists n, v = JInt n /\ 1 <= n <= 100.

(** The test of lines 391-394 on the checkpoints. *)
Definition stagnant (cps : list checkpoint) : bool :=
  (3 <=? Z.of_nat (List.length cps)) &&
  match non_increasing (map cp_evaluation (lastn 3 cps)) with
  | inr true => true
  | _ => false
  end.

(** [messages] is a conversation with the prompt [c] put at its end. *)
Definition asks (sn : string) (messages : list message) (c : content) : Prop :=
  exists q, messages = q ++ [mkMessage "user" c sn].

(** None of the calls [evs] that asked for JSON got text that does not
    parse. *)
Definition no_parse_failure (E : env) (evs : list event) : Prop :=
  forall messages r, In (ECreate messages true r) evs -> json_loads E r <> None.

(** The fields the assessment queries never touch. *)
Definition untouched (s s' : state) : Prop :=
  _checkpoints s' = _checkpoints s /\
  facts s' = facts s /\
  orchestrated_messages s' = orchestrated_messages s /\
  times_stalled s' = times_stalled s /\
  stalled_count s' = stalled_count s /\
  total_turns s' = total_turns s /\
  educated_guess_promt s' = educated_guess_promt s.

(** What [decide] does to the trace: the turn is left by [break] only when
    an assessment did not parse, and otherwise every answer parsed. *)
Definition decide_post (E : env) (sn : string) (task : content)
    (s : state) (f : flow json) : Prop :=
  exists evs,
    trace (out_state f) = trace s ++ evs /\
    untouched s (out_state f) /\
    match f with
    | Break s' =>
        plan s' = plan s /\
        forall messages r,
          In (ECreate messages true r) evs -> json_loads E r = None ->
          asks sn messages (StepPromptFast task) \/
          asks sn messages (StepPrompt task (team E) (names E))
    | _ => no_parse_failure E evs
    end.

(** What lines 373-388 do: a checkpoint with the current plan is added, and
    no call leaves the orchestrator. *)
Definition record_checkpoint_post (s : state) (f : flow unit) : Prop :=
  match f with
  | Next _ s' =>
      exists cp,
        _checkpoints s' = _checkpoints s ++ [cp] /\
        cp_plan cp = plan s /\
        plan s' = plan s /\
        facts s' = facts s /\
        orchestrated_messages s' = orchestrated_messages s /\
        times_stalled s' = times_stalled s /\
        total_turns s' = total_turns s /\
        trace s' = trace s
  | Break _ => False
  | Return _ s' => trace s' = trace s
  | Raise _ s' => trace s' = trace s
  end.

(** What lines 390-474 do to the trace: when they leave by [break] after an
    answer that did not parse, that answer was to the educated-guess
    question, and only [times_stalled] and the binding of the prompt have
    changed. *)
Definition check_stagnation_post (E : env) (sn : string)
    (s : state) (f : flow unit) : Prop :=
  exists evs,
    trace (out_state f) = trace s ++ evs /\
    match f with
    | Break s' =>
        forall messages r,
          In (ECreate messages true r) evs -> json_loads E r = None ->
          _checkpoints s' = _checkpoints s /\
          facts s' = facts s /\
          plan s' = plan s /\
          orchestrated_messages s' = orchestrated_messages s /\
          times_stalled s' = times_stalled s + 1 /\
          total_turns s' = total_turns s /\
          exists c, educated_guess_promt s' = Some c /\ asks sn messages c
    | _ => no_parse_failure E evs
    end.

(** C3 as it is stated: when a call of the turn that asked for JSON got
    text that does not parse, the turn is left by [break] with no checkpoint
    recorded and the facts, the plan, the messages and [times_stalled] as
    they were. *)
Definition abandons_without_checkpoint (E : env) (sn : string) (task : content)
    (s : state) : Prop :=
  forall evs messages r,
    trace (out_state (turn E sn task s)) = trace s ++ evs ->
    In (ECreate messages true r) evs ->
    json_loads E r = None ->
    exists s',
      turn E sn task s = Break s' /\
      _checkpoints s' = _checkpoints s /\
      facts s' = facts s /\
      plan s' = plan s /\
      orchestrated_messages s' = orchestrated_messages s /\
      times_stalled s' = times_stalled s.

(** ** The vocabulary of the further properties *)

(** The calls of [self.client.create] and of [generate_reply] in a trace. *)
Definition is_create (e : event) : bool :=
  match e with
  | ECreate _ _ _ => true
  | _ => false
  end.

Definition is_generate_reply (e : event) : bool :=
  match e with
  | EGenerateReply _ _ => true
  | _ => false
  end.

Definition calls (tr : list event) : nat := List.length (filter is_create tr).

Definition replies (tr : list event) : nat :=
  List.length (filter is_generate_reply tr).

(** [stalled_count] stays at or above zero. *)
Definition stalled_count_kept (s s' : state) : Prop :=
  0 <= stalled_count s -> 0 <= stalled_count s'.

(** The checkpoints of [s'] are those of [s] with more at the end. *)
Definition extends (s s' : state) : Prop :=
  exists l, _checkpoints s' = _checkpoints s ++ l.

(** No non-improving window has been counted and the local
    [educated_guess_promt] is unbound. *)
Definition fresh (s : state) : Prop :=
  times_stalled s = 0 /\ educated_guess_promt s = None.

(** How a run stands that began with the checkpoints [cps0]: at a loop head
    no window has been counted; after the end at most one, and then the end
    was the [UnboundLocalError] of line 414. *)
Definition never_escalated (cps0 : list checkpoint) (c : config) : Prop :=
  (exists l, _checkpoints (config_state c) = cps0 ++ l) /\
  educated_guess_promt (config_state c) = None /\
  match c with
  | AtOuter s => times_stalled s = 0
  | AtInner s => times_stalled s = 0
  | Finished o s =>
      o <> inr EducatedGuess /\
      (times_stalled s = 0 \/
       (times_stalled s = 1 /\ o = inl UnboundLocalError))
  end.

(** A configuration that is not the [return] of line 81. *)
Definition has_client (c : config) : Prop :=
  forall s, c <> Finished (inr NoClient) s.

(** However the block ends, it has made at most [kc] calls of
    [self.client.create] and [kr] calls of [generate_reply]. *)
Definition calls_within (kc kr : nat) {A : Type} (s : state) (f : flow A)
  : Prop :=
  (calls (trace (out_state f)) <= calls (trace s) + kc)%nat /\
  (replies (trace (out_state f)) <= replies (trace s) + kr)%nat.

(** The calls made so far are within two for the preamble and six a turn,
    the replies requested within one a turn. *)
Definition calls_bounded (c : config) : Prop :=
  Z.of_nat (calls (trace (config_state c)))
    <= 2 + 6 * total_turns (config_state c) /\
  Z.of_nat (replies (trace (config_state c))) <= total_turns (config_state c).

(** A code block tagged for one of the two executors. *)
Definition is_executable (t : string * string) : bool :=
  String.eqb (fst t) "python" || String.eqb (fst t) "sh".

(** What [decide] may change besides the trace: the plan, and only to the
    answer the oracle gave to the prompt that asked for a revision of it. *)
Definition decide_frame (E : env) (sn : string) (task : content)
    (s : state) (f : flow json) : Prop :=
  plan (out_state f) = plan s \/
  exists prev_evaluation data,
    plan (out_state f) =
    reply_to E sn (asked E sn s (StepPrompt task (team E) (names E)) true)
      (RevisePlanPrompt prev_evaluation data (plan s) (team E)) false.

(** The checkpoints after a block: as they were, one more, or none. *)
Definition same_or_cleared (s s' : state) : Prop :=
  _checkpoints s' = _checkpoints s \/ _checkpoints s' = [].

Definition same_or_one_more (s s' : state) : Prop :=
  _checkpoints s' = _checkpoints s \/
  exists cp, _checkpoints s' = _checkpoints s ++ [cp] /\ cp_plan cp = plan s.

(** The exceptions of an answer that parses but has not the shape asked
    for, and those a block of the loops can raise. *)
Definition data_exception (e : exc) : Prop :=
  e = KeyError \/ e = TypeError.

Definition loop_exception (e : exc) : Prop :=
  data_exception e \/ e = UnboundLocalError.

Definition raises_only (P : exc -> Prop) {A : Type} (f : flow A) : Prop :=
  match f with
  | Raise e _ => P e
  | _ => True
  end.

(** How a run stands with respect to exceptions: at a loop head no window
    has been counted, and a turn starts with a message in the context log;
    a run that has ended with an exception has ended with one of the loops',
    and with [UnboundLocalError] only on a non-improving window. *)
Definition log_started (c : config) : Prop :=
  match c with
  | AtOuter s => fresh s
  | AtInner s => fresh s /\ orchestrated_messages s <> []
  | Finished (inl e) s =>
      loop_exception e /\
      (e = UnboundLocalError ->
       stagnant (_checkpoints s) = true /\ times_stalled s = 1)
  | Finished (inr _) _ => True
  end.

Definition log_kept (s s' : state) : Prop :=
  orchestrated_messages s <> [] -> orchestrated_messages s' <> [].

(** The calls of [reset] in a trace. *)
Definition is_reset (e : event) : bool :=
  match e with
  | EReset _ => true
  | _ => false
  end.

Definition resets (tr : list event) : nat := List.length (filter is_reset tr).

(** No answer of the oracle parses as JSON. *)
Definition unparseable (E : env) : Prop :=
  forall n messages json_format,
    json_loads E (oracle E n messages json_format) = None.

(** A turn spent on one call and nothing else, with [n] resets before it. *)
Definition abandoned (n : nat) (s s' : state) : Prop :=
  total_turns s' = total_turns s + 1 /\
  _checkpoints s' = _checkpoints s /\
  facts s' = facts s /\ plan s' = plan s /\
  replies (trace s') = replies (trace s) /\
  calls (trace s') = S (calls (trace s)) /\
  resets (trace s') = (resets (trace s) + n)%nat.

Definition turn_abandoned (s : state) (f : flow unit) : Prop :=
  match f with
  | Break s' => abandoned 0 s s'
  | _ => False
  end.


(** ** Python values: lemmas *)

Lemma py_gt_int (a b : Z) : py_gt (JInt a) (JInt b) = ok (b <? a).
Proof. reflexivity. Qed.

Lemma assoc_set_same (k : string) (v : json) (kvs : list (string * json)) :
  assoc k (assoc_set k v kvs) = Some v.
Proof.
  induction kvs as [|[k' v'] rest IH]; simpl.
  - now rewrite String.eqb_refl.
  - destruct (String.eqb k k') eqn:Hk; simpl.
    + now rewrite String.eqb_refl.
    + now rewrite Hk.
Qed.

Lemma assoc_set_other (k k' : string) (v : json) (kvs : list (string * json)) :
  k <> k' -> assoc k' (assoc_set k v kvs) = assoc k' kvs.
Proof.
  intros Hne. induction kvs as [|[k0 v0] rest IH]; simpl.
  - destruct (String.eqb_spec k' k); congruence.
  - destruct (String.eqb_spec k k0) as [->|Hk0]; simpl.
    + destruct (String.eqb_spec k' k0); congruence.
    + destruct (String.eqb_spec k' k0); auto.
Qed.

Lemma getitem_setitem_other (d d' : json) (k k' : string) (v : json) :
  k <> k' -> setitem d k v = ok d' -> getitem d' k' = getitem d k'.
Proof.
  intros Hne. destruct d; simpl; try discriminate. intros [= <-]. simpl.
  now rewrite assoc_set_other.
Qed.

Lemma answer_setitem_other (d d' : json) (k k' : string) (v : json) :
  k <> k' -> setitem d k v = ok d' -> answer d' k' = answer d k'.
Proof.
  intros Hne Hset. unfold answer.
  now rewrite (getitem_setitem_other _ _ _ _ _ Hne Hset).
Qed.

(** ** The sends of a broadcast *)

Lemma broadcast_from_sends i agents m out_loud exclude :
  forallb is_send (broadcast_from i agents m out_loud exclude) = true.
Proof.
  revert i. induction agents as [|a rest IH]; intros i; simpl; auto.
  rewrite forallb_app, IH, andb_true_r.
  now destruct (existsb (Nat.eqb i) exclude).
Qed.

Lemma broadcast_from_all_silent i agents m :
  broadcast_from i agents m [] [] =
  map (fun j => ESend m j true) (seq i (List.length agents)).
Proof.
  revert i. induction agents as [|a rest IH]; intros i; simpl; auto.
  now rewrite IH.
Qed.

Lemma broadcast_from_unknown i agents m speaker :
  (forall a, In a agents -> py_eq (JStr (name a)) speaker = false) ->
  broadcast_from i agents m [speaker] [] = broadcast_from i agents m [] [].
Proof.
  revert i. induction agents as [|a rest IH]; intros i Hno; simpl; auto.
  unfold str_in; simpl. rewrite (Hno a (or_introl eq_refl)); simpl.
  rewrite IH; auto. intros b Hb. apply Hno. now right.
Qed.

Lemma find_speaker_unknown i agents speaker :
  (forall a, In a agents -> py_eq (JStr (name a)) speaker = false) ->
  find_speaker i agents speaker = None.
Proof.
  revert i. induction agents as [|a rest IH]; intros i Hno; simpl; auto.
  rewrite (Hno a (or_introl eq_refl)). apply IH.
  intros b Hb. apply Hno. now right.
Qed.

(** ** Running the monad *)

Lemma bind_next {A B : Type} (m : M A) (k : A -> M B) s a s' :
  m s = Next a s' -> bind m k s = k a s'.
Proof. unfold bind. now intros ->. Qed.

Lemma eval_ok {A : Type} (r : result A) (a : A) s :
  r = ok a -> eval r s = Next a s.
Proof. now intros ->. Qed.

Lemma pop_message_app s l x :
  orchestrated_messages s = l ++ [x] ->
  pop_message s = Next tt (set_orchestrated_messages l s).
Proof.
  intros H. unfold pop_message. rewrite H, removelast_last.
  destruct l; reflexivity.
Qed.

Lemma ask_eq E sn prompt fmt s :
  ask E sn prompt fmt s =
  Next (reply_to E sn s prompt fmt) (asked E sn s prompt fmt).
Proof.
  unfold ask, bind, append_message, create_orchestrated, bind, gets, modify,
    create, ret.
  cbn [orchestrated_messages set_orchestrated_messages].
  erewrite pop_message_app by reflexivity.
  destruct s; reflexivity.
Qed.

Lemma bind_ask {B : Type} E sn prompt fmt (k : string -> M B) s :
  bind (ask E sn prompt fmt) k s =
  k (reply_to E sn s prompt fmt) (asked E sn s prompt fmt).
Proof. apply bind_next, ask_eq. Qed.

Lemma bind_eval_ok {A B : Type} (r : result A) (a : A) (k : A -> M B) s :
  r = ok a -> bind (eval r) k s = k a s.
Proof. now intros ->. Qed.

Lemma bind_gets {A B : Type} (f : state -> A) (k : A -> M B) s :
  bind (gets f) k s = k (f s) s.
Proof. reflexivity. Qed.

Lemma bind_modify {B : Type} (f : state -> state) (k : unit -> M B) s :
  bind (modify f) k s = k tt (f s).
Proof. reflexivity. Qed.

Lemma bind_broadcast {B : Type} E m out_loud exclude (k : unit -> M B) s :
  bind (_broadcast E m out_loud exclude) k s =
  k tt (emit (broadcast_from 0 (_agents E) m out_loud exclude) s).
Proof. reflexivity. Qed.

Lemma bind_create_orchestrated {B : Type} E fmt (k : string -> M B) s :
  bind (create_orchestrated E fmt) k s =
  k (oracle E (n_create s) (orchestrated_messages s) fmt)
    (emit [ECreate (orchestrated_messages s) fmt
             (oracle E (n_create s) (orchestrated_messages s) fmt)]
          (set_n_create (S (n_create s)) s)).
Proof. reflexivity. Qed.

Lemma bind_ret {A B : Type} (a : A) (k : A -> M B) s :
  bind (ret a) k s = k a s.
Proof. reflexivity. Qed.

Lemma bind_raise_now {A B : Type} e (k : A -> M B) s :
  bind (raise e) k s = Raise e s.
Proof. reflexivity. Qed.

Lemma bind_break_now {A B : Type} (k : A -> M B) s :
  bind break_ k s = Break s.
Proof. reflexivity. Qed.

Lemma bind_return_now {A B : Type} r (k : A -> M B) s :
  bind (return_ r) k s = Return r s.
Proof. reflexivity. Qed.

Lemma bind_eval_inl {A B : Type} e (k : A -> M B) s :
  bind (eval (inl e)) k s = Raise e s.
Proof. reflexivity. Qed.

Lemma bind_eval_inr {A B : Type} (a : A) (k : A -> M B) s :
  bind (eval (inr a)) k s = k a s.
Proof. reflexivity. Qed.

Lemma bind_assoc {A B C : Type} (m : M A) (k : A -> M B) (h : B -> M C) s :
  bind (bind m k) h s = bind m (fun a => bind (k a) h) s.
Proof. unfold bind. destruct (m s); reflexivity. Qed.

Create Rewrite HintDb run.
#[local] Hint Rewrite @bind_ask @bind_create_orchestrated @bind_gets
  @bind_modify @bind_broadcast
  @bind_ret @bind_raise_now @bind_break_now @bind_return_now @bind_eval_inl
  @bind_eval_inr @bind_assoc : run.

(** Brings the states in the goal to their fields. *)
Ltac norm_goal :=
  try unfold asked; try unfold reply_to;
  cbn [eval _checkpoints orchestrated_messages facts plan total_turns
       times_stalled stalled_count educated_guess_promt n_create n_reply trace
       set_checkpoints set_orchestrated_messages set_facts set_plan
       set_total_turns set_times_stalled set_stalled_count
       set_educated_guess_promt set_n_create set_n_reply emit out_state].

Ltac run_step :=
  first [ rewrite bind_assoc | rewrite bind_ask
        | rewrite bind_create_orchestrated | rewrite bind_gets
        | rewrite bind_modify | rewrite bind_broadcast | rewrite bind_ret
        | rewrite bind_raise_now | rewrite bind_break_now
        | rewrite bind_return_now | rewrite bind_eval_inl
        | rewrite bind_eval_inr ].

(** Follows a block along every path it can take, one case per Python value
    or outcome that decides the way. *)
Ltac explore :=
  repeat (repeat (run_step; norm_goal);
          try match goal with
              | |- context [eval ?r] => destruct r eqn:?
              | |- context [match ?x with _ => _ end] =>
                  lazymatch x with
                  | context [match _ with _ => _ end] => fail
                  | _ => destruct x eqn:?
                  end
              end;
          norm_goal);
  try unfold _broadcast;
  try unfold ret; try unfold raise; try unfold break_; try unfold return_;
  try unfold modify; try unfold gets;
  norm_goal.

(** ** What a block leaves alone

    [keeps R m]: however [m] ends, the state it ends in is related by [R] to
    the one it started in. *)

Section Keeps.

Variable R : state -> state -> Prop.
Hypothesis R_refl : forall s, R s s.
Hypothesis R_trans : forall a b c, R a b -> R b c -> R a c.

Lemma keeps_ret {A : Type} (a : A) : keeps R (ret a).
Proof. intros s. apply R_refl. Qed.

Lemma keeps_gets {A : Type} (f : state -> A) : keeps R (gets f).
Proof. intros s. apply R_refl. Qed.

Lemma keeps_break {A : Type} : keeps R (@break_ A).
Proof. intros s. apply R_refl. Qed.

Lemma keeps_return {A : Type} r : keeps R (@return_ A r).
Proof. intros s. apply R_refl. Qed.

Lemma keeps_raise {A : Type} e : keeps R (@raise A e).
Proof. intros s. apply R_refl. Qed.

Lemma keeps_eval {A : Type} (r : result A) : keeps R (eval r).
Proof. intros s. destruct r; apply R_refl. Qed.

Lemma keeps_modify (f : state -> state) :
  (forall s, R s (f s)) -> keeps R (modify f).
Proof. intros H s. apply H. Qed.

Lemma keeps_create E messages json_format :
  (forall s evs n, R s (emit evs (set_n_create n s))) ->
  keeps R (create E messages json_format).
Proof. intros H s. apply H. Qed.

Lemma keeps_pop_message :
  (forall s l, R s (set_orchestrated_messages l s)) -> keeps R pop_message.
Proof.
  intros H s. unfold pop_message.
  destruct (orchestrated_messages s); [apply R_refl | apply H].
Qed.

Lemma keeps_bind {A B : Type} (m : M A) (k : A -> M B) :
  keeps R m -> (forall a, keeps R (k a)) -> keeps R (bind m k).
Proof.
  intros Hm Hk s. unfold bind.
  specialize (Hm s). destruct (m s) as [a s'| | |]; auto.
  eapply R_trans; [exact Hm | apply Hk].
Qed.

Lemma keeps_bind_eval {A B : Type} (r : result A) (k : A -> M B) :
  (forall a, r = ok a -> keeps R (k a)) -> keeps R (bind (eval r) k).
Proof.
  intros Hk s. destruct r as [e|a]; [apply R_refl|].
  rewrite bind_eval_inr. now apply Hk.
Qed.

(** The same, when what [m] hands over is known to satisfy [Q]. *)
Lemma keeps_bind_post {A B : Type} (Q : A -> Prop) (m : M A) (k : A -> M B) :
  (forall s a s', m s = Next a s' -> Q a) ->
  keeps R m -> (forall a, Q a -> keeps R (k a)) -> keeps R (bind m k).
Proof.
  intros HQ Hm Hk s. unfold bind.
  specialize (Hm s). specialize (HQ s).
  destruct (m s) as [a s'| | |]; auto.
  eapply R_trans; [exact Hm | apply Hk; eauto].
Qed.

End Keeps.

(** Takes a block apart down to its state updates; [side] proves that each
    update respects the relation. *)
Create HintDb blocks.
#[local] Hint Unfold decide record_checkpoint check_stagnation delegate
  fast_path normal_path escalate full_replan ask append_message
  create_orchestrated _broadcast save_checkpoint : blocks.

Ltac keeps_blocks refl trans side :=
  repeat autounfold with blocks;
  repeat lazymatch goal with
    | |- keeps _ (bind _ _) => apply (keeps_bind _ trans); [|intros ?]
    | |- keeps _ (ret _) => apply (keeps_ret _ refl)
    | |- keeps _ (gets _) => apply (keeps_gets _ refl)
    | |- keeps _ break_ => apply (keeps_break _ refl)
    | |- keeps _ (return_ _) => apply (keeps_return _ refl)
    | |- keeps _ (raise _) => apply (keeps_raise _ refl)
    | |- keeps _ (eval _) => apply (keeps_eval _ refl)
    | |- keeps _ (modify _) => apply keeps_modify; side
    | |- keeps _ (create _ _ _) => apply keeps_create; side
    | |- keeps _ pop_message => apply (keeps_pop_message _ refl); side
    | |- keeps _ (match ?x with _ => _ end) => destruct x
    | |- keeps _ (let _ := _ in _) => cbv zeta
    end.

Lemma same_refl {A : Type} (f : state -> A) s : same f s s.
Proof. reflexivity. Qed.

Lemma same_trans {A : Type} (f : state -> A) a b c :
  same f a b -> same f b c -> same f a c.
Proof. unfold same. congruence. Qed.

Ltac keeps_same f :=
  keeps_blocks (same_refl f) (same_trans f) ltac:(intros; reflexivity).

Section TurnFrames.

Variables (E : env) (sn : string) (task : content).

Lemma decide_total_turns : keeps (same total_turns) (decide E sn task).
Proof. keeps_same total_turns. Qed.

Lemma record_checkpoint_total_turns data :
  keeps (same total_turns) (record_checkpoint data).
Proof. keeps_same total_turns. Qed.

Lemma check_stagnation_total_turns :
  keeps (same total_turns) (check_stagnation E sn).
Proof. keeps_same total_turns. Qed.

Lemma delegate_total_turns data : keeps (same total_turns) (delegate E data).
Proof. keeps_same total_turns. Qed.

(** Each turn counts once. *)
Lemma turn_total_turns s :
  total_turns (out_state (turn E sn task s)) = total_turns s + 1.
Proof.
  unfold turn. rewrite bind_modify.
  set (s1 := set_total_turns (total_turns s + 1) s).
  change (total_turns s + 1) with (total_turns s1).
  revert s1. apply (keeps_bind _ (same_trans total_turns)).
  - apply decide_total_turns.
  - intros data. apply (keeps_bind _ (same_trans total_turns)).
    + apply record_checkpoint_total_turns.
    + intros _. apply (keeps_bind _ (same_trans total_turns)).
      * apply check_stagnation_total_turns.
      * intros _. apply delegate_total_turns.
Qed.

Lemma round_init_total_turns s :
  total_turns (round_init E task s) = total_turns s.
Proof. reflexivity. Qed.

End TurnFrames.

(** ** The budget *)

Section Budget.

Variables (E : env) (sn : string) (task : content).

Lemma turn_cases s :
  match turn E sn task s with
  | Next _ s' | Break s' | Return _ s' | Raise _ s' =>
      total_turns s' = total_turns s + 1
  end.
Proof.
  pose proof (turn_total_turns E sn task s) as H.
  destruct (turn E sn task s); exact H.
Qed.

Lemma step_within_budget c :
  within_budget c -> within_budget (step E sn task c).
Proof.
  unfold within_budget. destruct c as [s|s|o s]; cbn [step config_state]; auto.
  - destruct (total_turns s <? max_turns); cbn [config_state]; auto.
  - destruct (Z.ltb_spec (total_turns s) max_turns) as [Hlt|Hge];
      cbn [config_state]; auto.
    pose proof (turn_cases s) as H.
    destruct (turn E sn task s); cbn [config_state]; lia.
Qed.

Lemma exec_within_budget n c :
  within_budget c -> within_budget (exec E sn task n c).
Proof.
  revert c. induction n as [|n IH]; intros c Hc; cbn [exec]; auto.
  apply IH, step_within_budget, Hc.
Qed.

Lemma step_distance c :
  (distance (step E sn task c) < distance c)%nat \/ distance c = O.
Proof.
  destruct c as [s|s|o s]; cbn [step]; auto; left.
  - unfold distance at 2.
    destruct (Z.ltb_spec (total_turns s) max_turns) as [Hlt|Hge].
    + cbn [distance]. unfold remaining.
      rewrite (round_init_total_turns E task s).
      destruct (Z.to_nat (max_turns - total_turns s)) eqn:Hr; lia.
    + cbn [distance]. destruct (remaining s); lia.
  - destruct (Z.ltb_spec (total_turns s) max_turns) as [Hlt|Hge].
    + pose proof (turn_cases s) as H.
      assert (Hrem : forall s', total_turns s' = total_turns s + 1 ->
                S (remaining s') = remaining s)
        by (intros s' Hs'; unfold remaining; rewrite Hs'; lia).
      destruct (turn E sn task s) as [a s'|s'|r s'|e s'];
        specialize (Hrem s' H); cbn [distance]; try lia.
      destruct (remaining s'); lia.
    + cbn [distance]. unfold remaining.
      replace (Z.to_nat (max_turns - total_turns s)) with O by lia. lia.
Qed.

Lemma exec_finished n o s : exec E sn task n (Finished o s) = Finished o s.
Proof. induction n; cbn [exec step]; auto. Qed.

(** The loops end: a run never needs more steps than its distance. *)
Lemma exec_finishes n c :
  (distance c <= n)%nat -> exists o s, exec E sn task n c = Finished o s.
Proof.
  revert c. induction n as [|n IH]; intros c Hn.
  - destruct c; cbn [distance] in Hn.
    + destruct (remaining s); lia.
    + lia.
    + cbn [exec]. eauto.
  - cbn [exec]. destruct (step_distance c) as [Hlt|Hz].
    + apply IH. lia.
    + destruct c; cbn [distance] in Hz.
      * destruct (remaining s); lia.
      * lia.
      * cbn [step]. rewrite exec_finished. eauto.
Qed.

End Budget.

Lemma enter_total_turns E cps om messages sender sn task s :
  enter E cps om messages sender = inr (sn, task, s) -> total_turns s = 0.
Proof.
  unfold enter. destruct (client_is_none E); [discriminate|].
  destruct (pop _) as [[ms tm]|]; [|discriminate].
  destruct sender; [|discriminate].
  intros [= <- <- <-]. reflexivity.
Qed.

(** ** Where the loops return *)

Section ReturnSites.

Variables (E : env) (sn : string) (task : content).

Lemma decide_no_return s r s' : decide E sn task s <> Return r s'.
Proof.
  unfold decide, fast_path, normal_path.
  explore; discriminate.
Qed.

Lemma record_checkpoint_return data s r s' :
  record_checkpoint data s = Return r s' -> r = Satisfied.
Proof.
  unfold record_checkpoint, save_checkpoint.
  explore; intros H; try discriminate H; now injection H as <- _.
Qed.

Lemma check_stagnation_return s r s' :
  check_stagnation E sn s = Return r s' -> r = EducatedGuess.
Proof.
  unfold check_stagnation, escalate, full_replan, append_message.
  explore; intros H; try discriminate H; now injection H as <- _.
Qed.

Lemma delegate_no_return data s r s' : delegate E data s <> Return r s'.
Proof.
  unfold delegate, append_message.
  explore; discriminate.
Qed.

(** The only [return] statements inside the loops are those of lines 381
    and 433. *)
Lemma turn_return_sites s r s' :
  turn E sn task s = Return r s' -> r = Satisfied \/ r = EducatedGuess.
Proof.
  unfold turn. rewrite bind_modify. unfold bind.
  destruct (decide E sn task _) as [data s1|s1|r1 s1|e s1] eqn:Hd;
    try discriminate.
  2: { now apply decide_no_return in Hd. }
  destruct (record_checkpoint data s1) as [[] s2|s2|r2 s2|e s2] eqn:Hr;
    try discriminate.
  2: { intros [= <- _]. left. eapply record_checkpoint_return, Hr. }
  destruct (check_stagnation E sn s2) as [[] s3|s3|r3 s3|e s3] eqn:Hc;
    try discriminate.
  2: { intros [= <- _]. right. eapply check_stagnation_return, Hc. }
  intros H. now apply delegate_no_return in H.
Qed.

End ReturnSites.

(** ** Leaving by line 495 *)

Section Exhaustion.

Variables (E : env) (sn : string) (task : content).

Lemma step_exhausted_at_cap c :
  exhausted_at_cap c -> exhausted_at_cap (step E sn task c).
Proof.
  intros [Hb Hf]. split; [now apply step_within_budget|].
  destruct c as [s|s|o s]; cbn [step]; auto.
  - destruct (Z.ltb_spec (total_turns s) max_turns) as [Hlt|Hge];
      [discriminate|].
    intros s' [= <-]. unfold within_budget in Hb. cbn [config_state] in Hb. lia.
  - destruct (total_turns s <? max_turns); [|discriminate].
    destruct (turn E sn task s) as [a s1|s1|r s1|e s1] eqn:Ht; try discriminate.
    intros s' [= -> _].
    destruct (turn_return_sites _ _ _ _ _ _ Ht); discriminate.
Qed.

Lemma exec_exhausted_at_cap n c :
  exhausted_at_cap c -> exhausted_at_cap (exec E sn task n c).
Proof.
  revert c. induction n as [|n IH]; intros c Hc; cbn [exec]; auto.
  apply IH, step_exhausted_at_cap, Hc.
Qed.

End Exhaustion.

(** ** The scores of the checkpoints *)

Section Scores.

Variable E : env.
Variable P : json -> Prop.

Lemma scores_kept_refl s : scores_kept P s s.
Proof. intros H. exact H. Qed.

Lemma scores_kept_trans a b c :
  scores_kept P a b -> scores_kept P b c -> scores_kept P a c.
Proof. unfold scores_kept. auto. Qed.

Ltac keeps_scores :=
  keeps_blocks scores_kept_refl scores_kept_trans
    ltac:(intros; unfold scores_kept, checkpoint_scores; cbn; auto).

Hypothesis HP : oracle_scores E P.

Variables (sn : string) (task : content).

Lemma decide_score s data s' :
  decide E sn task s = Next data s' ->
  forall v, answer data "current_evaluation" = ok v -> P v.
Proof.
  unfold decide, fast_path, normal_path.
  explore; intros H; try discriminate H; injection H as <- _; intros v Hv;
    unfold reply_to in *;
    repeat match goal with
      | Hs : setitem ?d ?k ?x = inr ?d' |- _ =>
          rewrite (answer_setitem_other d d' k "current_evaluation" x
                     ltac:(discriminate) Hs) in Hv;
          clear Hs
      end;
    match goal with
    | Hl : json_loads _ _ = Some ?d, Ha : answer ?d _ = ok ?w |- P ?w =>
        exact (HP _ _ _ _ Hl Ha)
    end.
Qed.

Lemma decide_scores : keeps (scores_kept P) (decide E sn task).
Proof. keeps_scores. Qed.

Lemma record_checkpoint_scores data :
  (forall v, answer data "current_evaluation" = ok v -> P v) ->
  keeps (scores_kept P) (record_checkpoint data).
Proof.
  intros Hdata. unfold record_checkpoint.
  apply (keeps_bind _ scores_kept_trans); [apply (keeps_gets _ scores_kept_refl)|].
  intros p.
  apply (keeps_bind_eval _ scores_kept_refl). intros evaluation Hev.
  apply (keeps_bind_eval _ scores_kept_refl). intros response _.
  apply (keeps_bind _ scores_kept_trans).
  - unfold save_checkpoint. apply keeps_modify. intros s H. cbn.
    apply Forall_app. split; [exact H|].
    constructor; [|constructor]. cbn. now apply Hdata.
  - intros _. keeps_scores.
Qed.

Lemma check_stagnation_scores : keeps (scores_kept P) (check_stagnation E sn).
Proof. keeps_scores. Qed.

Lemma delegate_scores data : keeps (scores_kept P) (delegate E data).
Proof. keeps_scores. Qed.

Lemma turn_scores : keeps (scores_kept P) (turn E sn task).
Proof.
  unfold turn.
  apply (keeps_bind _ scores_kept_trans).
  { apply keeps_modify. intros s H. exact H. }
  intros _.
  apply (keeps_bind_post _ scores_kept_trans
           (fun data => forall v, answer data "current_evaluation" = ok v -> P v)).
  - intros s data s'. apply decide_score.
  - apply decide_scores.
  - intros data Hdata. apply (keeps_bind _ scores_kept_trans).
    + now apply record_checkpoint_scores.
    + intros _. apply (keeps_bind _ scores_kept_trans).
      * apply check_stagnation_scores.
      * intros _. apply delegate_scores.
Qed.

Lemma step_scores c :
  checkpoint_scores P (_checkpoints (config_state c)) ->
  checkpoint_scores P (_checkpoints (config_state (step E sn task c))).
Proof.
  destruct c as [s|s|o s]; cbn [step config_state]; auto.
  - destruct (total_turns s <? max_turns); auto.
  - destruct (total_turns s <? max_turns); auto.
    pose proof (turn_scores s) as H.
    destruct (turn E sn task s); apply H.
Qed.

Lemma exec_scores n c :
  checkpoint_scores P (_checkpoints (config_state c)) ->
  checkpoint_scores P (_checkpoints (config_state (exec E sn task n c))).
Proof.
  revert c. induction n as [|n IH]; intros c Hc; cbn [exec]; auto.
  apply IH, step_scores, Hc.
Qed.

End Scores.

Lemma enter_checkpoints E cps om messages sender :
  match enter E cps om messages sender with
  | inl (_, s) => _checkpoints s = cps
  | inr (_, _, s) => _checkpoints s = cps
  end.
Proof.
  unfold enter. destruct (client_is_none E); [reflexivity|].
  destruct (pop _) as [[ms tm]|]; [|reflexivity].
  destruct sender; reflexivity.
Qed.

(** ** times_stalled *)

Section TimesStalled.

Variables (E : env) (sn : string) (task : content).

Lemma decide_times_stalled : keeps (same times_stalled) (decide E sn task).
Proof. keeps_same times_stalled. Qed.

Lemma record_checkpoint_times_stalled data :
  keeps (same times_stalled) (record_checkpoint data).
Proof. keeps_same times_stalled. Qed.

Lemma escalate_times_stalled : keeps (same times_stalled) (escalate E sn).
Proof. keeps_same times_stalled. Qed.

Lemma delegate_times_stalled data :
  keeps (same times_stalled) (delegate E data).
Proof. keeps_same times_stalled. Qed.

(** Lines 390-474 add one to [times_stalled] when the last three scores do
    not improve, and nothing otherwise. *)
Lemma check_stagnation_times_stalled s :
  times_stalled (out_state (check_stagnation E sn s)) =
  times_stalled s + (if stagnant (_checkpoints s) then 1 else 0).
Proof.
  unfold check_stagnation, stagnant. rewrite bind_gets.
  destruct (3 <=? Z.of_nat (List.length (_checkpoints s))); cbn [andb];
    [|cbn; lia].
  destruct (non_increasing _) as [e|[|]]; [cbn; lia| |cbn; lia].
  rewrite bind_eval_inr, bind_modify.
  set (s1 := set_times_stalled (times_stalled s + 1) s).
  change (times_stalled s + 1) with (times_stalled s1).
  generalize s1.
  match goal with
  | |- forall s0, _ (out_state (?m s0)) = _ =>
      change (keeps (same times_stalled) m)
  end.
  keeps_same times_stalled.
Qed.

Lemma turn_times_stalled s :
  times_stalled s <= times_stalled (out_state (turn E sn task s)).
Proof.
  unfold turn. rewrite bind_modify.
  set (s0 := set_total_turns (total_turns s + 1) s).
  change (times_stalled s) with (times_stalled s0). clearbody s0.
  unfold bind.
  pose proof (decide_times_stalled s0) as Hd.
  destruct (decide E sn task s0) as [data s1|s1|r s1|e s1];
    unfold same in Hd; cbn [out_state] in *; try lia.
  pose proof (record_checkpoint_times_stalled data s1) as Hr.
  destruct (record_checkpoint data s1) as [[] s2|s2|r s2|e s2];
    unfold same in Hr; cbn [out_state] in *; try lia.
  pose proof (check_stagnation_times_stalled s2) as Hc.
  destruct (check_stagnation E sn s2) as [[] s3|s3|r s3|e s3];
    cbn [out_state] in *; try (destruct (stagnant _); lia).
  pose proof (delegate_times_stalled data s3) as Hg. unfold same in Hg.
  destruct (stagnant _); lia.
Qed.

Lemma step_times_stalled c :
  times_stalled (config_state c) <=
  times_stalled (config_state (step E sn task c)).
Proof.
  destruct c as [s|s|o s]; cbn [step config_state]; try lia.
  - destruct (total_turns s <? max_turns); cbn; lia.
  - destruct (total_turns s <? max_turns); cbn [config_state]; try lia.
    pose proof (turn_times_stalled s) as H.
    destruct (turn E sn task s); exact H.
Qed.

Lemma exec_times_stalled n c :
  times_stalled (config_state c) <=
  times_stalled (config_state (exec E sn task n c)).
Proof.
  revert c. induction n as [|n IH]; intros c; cbn [exec]; [lia|].
  etransitivity; [apply step_times_stalled | apply IH].
Qed.

End TimesStalled.

(** ** The full re-plan *)

Section Replan.

Variables (E : env) (sn : string).

Lemma full_replan_break s :
  exists s',
    full_replan E sn s = Break s' /\
    _checkpoints s' = [] /\
    times_stalled s' = times_stalled s /\
    facts s' = facts s /\
    total_turns s' = total_turns s.
Proof.
  unfold full_replan, append_message. explore.
  eexists. split; [reflexivity|]. cbn. auto.
Qed.

(** After a second non-improving window, a parsed "no" to the
    educated-guess question leads to the re-plan. *)
Lemma check_stagnation_replans s d g :
  stagnant (_checkpoints s) = true ->
  1 <= times_stalled s ->
  let prompt := EducatedGuessPrompt (facts s) in
  let s1 := set_educated_guess_promt (Some prompt)
              (set_times_stalled (times_stalled s + 1) s) in
  json_loads E (reply_to E sn s1 prompt true) = Some d ->
  answer d "has_educated_guesses" = ok g ->
  truthy g = false ->
  exists s',
    check_stagnation E sn s = Break s' /\
    _checkpoints s' = [] /\
    times_stalled s' = times_stalled s + 1.
Proof.
  intros Hst Hts prompt s1 Hd Hg Hno.
  revert Hst. unfold stagnant, check_stagnation. rewrite bind_gets.
  destruct (3 <=? Z.of_nat (List.length (_checkpoints s))); [|discriminate].
  destruct (non_increasing _) as [e|[|]]; try discriminate. intros _.
  rewrite bind_eval_inr, bind_modify, bind_gets.
  cbn [times_stalled set_times_stalled].
  replace (2 <=? times_stalled s + 1) with true
    by (symmetry; apply Z.leb_le; lia).
  autorewrite with run. cbn [facts set_times_stalled].
  fold prompt. fold s1. unfold escalate.
  rewrite bind_gets. cbn [educated_guess_promt s1 set_educated_guess_promt].
  rewrite bind_ask, Hd, (bind_eval_ok _ _ _ _ Hg), Hno.
  autorewrite with run. unfold append_message. autorewrite with run.
  match goal with
  | |- context [full_replan E sn ?s2] =>
      destruct (full_replan_break s2) as (s' & -> & Hc & Ht & _)
  end.
  exists s'. split; [reflexivity|]. split; [exact Hc|].
  rewrite Ht. reflexivity.
Qed.

End Replan.

(** ** Answers that do not parse *)

Lemma in_broadcast_from e i agents m out_loud exclude :
  In e (broadcast_from i agents m out_loud exclude) -> is_send e = true.
Proof.
  intros H. pose proof (broadcast_from_sends i agents m out_loud exclude) as Hs.
  rewrite forallb_forall in Hs. now apply Hs.
Qed.

(** Splits membership in a list of events into its cases and closes those
    that are a send, a call without [response_format], or a call whose
    answer is known to parse. *)
Ltac event_cases H :=
  repeat rewrite in_app_iff in H; cbn [In] in H;
  repeat match type of H with
    | _ \/ _ => destruct H as [H|H]
    end;
  try contradiction;
  try discriminate H;
  try (apply in_broadcast_from in H; discriminate H);
  try (injection H as <- <-).

Section ParseFailures.

Variables (E : env) (sn : string) (task : content).

Ltac trace_suffix :=
  eexists; split;
  [first [symmetry; apply app_nil_r | rewrite <- ?app_assoc; reflexivity] |].

Lemma decide_events s : decide_post E sn task s (decide E sn task s).
Proof.
  unfold decide, fast_path, normal_path.
  explore; unfold decide_post, untouched, no_parse_failure; norm_goal;
    trace_suffix;
    (split; [repeat split|]);
    try (split; [reflexivity|]);
    intros messages r Hin; try intros Hnone;
    event_cases Hin; try congruence;
    first [left; eexists; reflexivity | right; eexists; reflexivity].
Qed.

Lemma record_checkpoint_effect data s :
  record_checkpoint_post s (record_checkpoint data s).
Proof.
  unfold record_checkpoint, save_checkpoint.
  explore; unfold record_checkpoint_post; norm_goal; try reflexivity;
    eexists; repeat split; reflexivity.
Qed.

Lemma check_stagnation_events s :
  check_stagnation_post E sn s (check_stagnation E sn s).
Proof.
  unfold check_stagnation, escalate, full_replan, append_message.
  explore; unfold check_stagnation_post, no_parse_failure; norm_goal;
    try match goal with
        | H : Some _ = Some ?c |- _ => injection H as H; subst c
        end;
    trace_suffix;
    intros messages r Hin; try intros Hnone;
    event_cases Hin; try congruence;
    repeat (split; [reflexivity|]);
    eexists; (split; [first [reflexivity | eassumption]|]);
    eexists; reflexivity.
Qed.

Lemma delegate_events data s :
  exists evs,
    trace (out_state (delegate E data s)) = trace s ++ evs /\
    forall messages fmt r, ~ In (ECreate messages fmt r) evs.
Proof.
  unfold delegate, append_message.
  explore; trace_suffix; intros messages fmt r Hin; event_cases Hin.
Qed.

End ParseFailures.

(** A turn in which a call that asked for JSON got text that does not
    parse, from any state of the loop body: the turn is left by [break], the
    turn counted, with the facts and the messages as they were.  Either the
    call was one of the assessments, and nothing else has changed; or it was
    the educated-guess question, which comes after the checkpoint of the turn
    and after the count of the window. *)
Lemma turn_parse_failure :
  forall (E : env) (sn : string) (task : content) (s : state)
         (evs : list event) (messages : list message) (r : string),
    trace (out_state (turn E sn task s)) = trace s ++ evs ->
    In (ECreate messages true r) evs ->
    json_loads E r = None ->
    exists s',
      turn E sn task s = Break s' /\
      facts s' = facts s /\
      orchestrated_messages s' = orchestrated_messages s /\
      total_turns s' = total_turns s + 1 /\
      ((_checkpoints s' = _checkpoints s /\
        plan s' = plan s /\
        times_stalled s' = times_stalled s /\
        stalled_count s' = stalled_count s /\
        (asks sn messages (StepPromptFast task) \/
         asks sn messages (StepPrompt task (team E) (names E))))
       \/
       (exists cp c,
          _checkpoints s' = _checkpoints s ++ [cp] /\
          plan s' = cp_plan cp /\
          times_stalled s' = times_stalled s + 1 /\
          educated_guess_promt s' = Some c /\
          asks sn messages c)).
Proof.
  intros E sn task s evs messages r Htrace Hin Hnone.
  unfold turn in *. rewrite bind_modify in *.
  set (s0 := set_total_turns (total_turns s + 1) s) in *.
  assert (Hf0 : facts s0 = facts s) by reflexivity.
  assert (Hc0 : _checkpoints s0 = _checkpoints s) by reflexivity.
  assert (Hm0 : orchestrated_messages s0 = orchestrated_messages s)
    by reflexivity.
  assert (Hs0 : times_stalled s0 = times_stalled s) by reflexivity.
  assert (Hk0 : stalled_count s0 = stalled_count s) by reflexivity.
  assert (Hpl0 : plan s0 = plan s) by reflexivity.
  assert (Hn0 : total_turns s0 = total_turns s + 1) by reflexivity.
  assert (Ht0 : trace s0 = trace s) by reflexivity.
  clearbody s0.
  destruct (decide_events E sn task s0) as (evs1 & Ht1 & Hu1 & H1).
  destruct Hu1 as (Hc1 & Hf1 & Hm1 & Hs1 & Hk1 & Hn1 & _).
  unfold bind in *.
  destruct (decide E sn task s0) as [data s1|s1|r1 s1|e1 s1];
    cbn [out_state] in *.
  - (* the assessments parsed *)
    pose proof (record_checkpoint_effect data s1) as Hr.
    unfold record_checkpoint_post in Hr.
    destruct (record_checkpoint data s1) as [[] s2|s2|r2 s2|e2 s2];
      cbn [out_state] in *.
    + destruct Hr as (cp & Hc2 & Hp2 & Hpl2 & Hf2 & Hm2 & Hs2 & Hn2 & Ht2).
      destruct (check_stagnation_events E sn s2) as (evs3 & Ht3 & H3).
      destruct (check_stagnation E sn s2) as [[] s3|s3|r3 s3|e3 s3];
        cbn [out_state] in *.
      * destruct (delegate_events E data s3) as (evs4 & Ht4 & H4).
        rewrite Ht4, Ht3, Ht2, Ht1, Ht0, <- !app_assoc in Htrace.
        apply app_inv_head in Htrace. subst evs.
        rewrite !in_app_iff in Hin. destruct Hin as [Hin|[Hin|Hin]].
        -- now apply H1 in Hin.
        -- now apply H3 in Hin.
        -- now apply H4 in Hin.
      * rewrite Ht3, Ht2, Ht1, Ht0, <- !app_assoc in Htrace.
        apply app_inv_head in Htrace. subst evs.
        rewrite in_app_iff in Hin. destruct Hin as [Hin|Hin].
        -- now apply H1 in Hin.
        -- destruct (H3 _ _ Hin Hnone)
             as (Hc3 & Hf3 & Hpl3 & Hm3 & Hs3 & Hn3 & c & Hg3 & Hask).
           exists s3. split; [reflexivity|].
           split; [congruence|]. split; [congruence|].
           split; [lia|].
           right. exists cp, c. repeat split; try assumption.
           ++ congruence.
           ++ congruence.
           ++ lia.
      * rewrite Ht3, Ht2, Ht1, Ht0, <- !app_assoc in Htrace.
        apply app_inv_head in Htrace. subst evs.
        rewrite in_app_iff in Hin. destruct Hin as [Hin|Hin].
        -- now apply H1 in Hin.
        -- now apply H3 in Hin.
      * rewrite Ht3, Ht2, Ht1, Ht0, <- !app_assoc in Htrace.
        apply app_inv_head in Htrace. subst evs.
        rewrite in_app_iff in Hin. destruct Hin as [Hin|Hin].
        -- now apply H1 in Hin.
        -- now apply H3 in Hin.
    + contradiction.
    + rewrite Hr, Ht1, Ht0 in Htrace. apply app_inv_head in Htrace. subst evs.
      now apply H1 in Hin.
    + rewrite Hr, Ht1, Ht0 in Htrace. apply app_inv_head in Htrace. subst evs.
      now apply H1 in Hin.
  - (* an assessment did not parse *)
    rewrite Ht1, Ht0 in Htrace. apply app_inv_head in Htrace. subst evs.
    destruct H1 as (Hpl1 & Hask).
    exists s1. split; [reflexivity|].
    split; [congruence|]. split; [congruence|]. split; [lia|].
    left. repeat split; try congruence. eapply Hask; eassumption.
  - rewrite Ht1, Ht0 in Htrace. apply app_inv_head in Htrace. subst evs.
    now apply H1 in Hin.
  - rewrite Ht1, Ht0 in Htrace. apply app_inv_head in Htrace. subst evs.
    now apply H1 in Hin.
Qed.

(** ** The first non-improving window *)

(** Lines 414-474 are not under [if times_stalled >= 2:].  The first time
    the last three scores do not improve, [times_stalled] becomes 1, line
    399 is skipped, and line 414 reads a local variable that was never
    assigned. *)
Lemma first_window_raises E sn s :
  stagnant (_checkpoints s) = true ->
  times_stalled s < 1 ->
  educated_guess_promt s = None ->
  check_stagnation E sn s =
  Raise UnboundLocalError (set_times_stalled (times_stalled s + 1) s).
Proof.
  intros Hst Hts Hnone.
  revert Hst. unfold stagnant, check_stagnation. rewrite bind_gets.
  destruct (3 <=? Z.of_nat (List.length (_checkpoints s))); [|discriminate].
  destruct (non_increasing _) as [e|[|]]; try discriminate. intros _.
  rewrite bind_eval_inr, bind_modify, bind_gets.
  cbn [times_stalled set_times_stalled].
  replace (2 <=? times_stalled s + 1) with false
    by (symmetry; apply Z.leb_gt; lia).
  rewrite bind_ret. unfold escalate. rewrite bind_gets.
  cbn [educated_guess_promt set_times_stalled]. now rewrite Hnone.
Qed.

(** ** No window is counted twice *)

Lemma extends_refl s : extends s s.
Proof. exists []. now rewrite app_nil_r. Qed.

Lemma extends_trans a b c : extends a b -> extends b c -> extends a c.
Proof.
  intros [l Hl] [l' Hl']. exists (l ++ l'). now rewrite Hl', Hl, app_assoc.
Qed.

Ltac keeps_extends :=
  keeps_blocks extends_refl extends_trans
    ltac:(intros; unfold extends; cbn;
          first [eexists; reflexivity | exists []; now rewrite app_nil_r]).

Section Fresh.

Variables (E : env) (sn : string) (task : content).

Lemma decide_extends : keeps extends (decide E sn task).
Proof. keeps_extends. Qed.

Lemma record_checkpoint_extends data : keeps extends (record_checkpoint data).
Proof. keeps_extends. Qed.

Lemma delegate_extends data : keeps extends (delegate E data).
Proof. keeps_extends. Qed.

Lemma decide_prompt : keeps (same educated_guess_promt) (decide E sn task).
Proof. keeps_same educated_guess_promt. Qed.

Lemma record_checkpoint_prompt data :
  keeps (same educated_guess_promt) (record_checkpoint data).
Proof. keeps_same educated_guess_promt. Qed.

Lemma delegate_prompt data :
  keeps (same educated_guess_promt) (delegate E data).
Proof. keeps_same educated_guess_promt. Qed.

(** From a fresh state lines 390-474 either do nothing or raise: the first
    window they count is the one that reads the unbound local. *)
Lemma check_stagnation_fresh s :
  fresh s ->
  match check_stagnation E sn s with
  | Next _ s' => s' = s
  | Raise e s' =>
      _checkpoints s' = _checkpoints s /\
      educated_guess_promt s' = None /\
      (times_stalled s' = 0 \/
       (times_stalled s' = 1 /\ e = UnboundLocalError))
  | _ => False
  end.
Proof.
  intros [Hts Hnone].
  destruct (stagnant (_checkpoints s)) eqn:Hst.
  - rewrite first_window_raises by (auto; lia). cbn. rewrite Hts. auto.
  - revert Hst. unfold stagnant, check_stagnation. rewrite bind_gets.
    destruct (3 <=? Z.of_nat (List.length (_checkpoints s))); [|reflexivity].
    destruct (non_increasing _) as [e|[|]]; try discriminate; intros _.
    + cbn. auto.
    + reflexivity.
Qed.

Lemma turn_fresh s :
  fresh s ->
  extends s (out_state (turn E sn task s)) /\
  educated_guess_promt (out_state (turn E sn task s)) = None /\
  match turn E sn task s with
  | Next _ s' => times_stalled s' = 0
  | Break s' => times_stalled s' = 0
  | Return r s' => r = Satisfied /\ times_stalled s' = 0
  | Raise e s' =>
      times_stalled s' = 0 \/ (times_stalled s' = 1 /\ e = UnboundLocalError)
  end.
Proof.
  intros [Hts Hnone]. unfold turn. rewrite bind_modify.
  set (s0 := set_total_turns (total_turns s + 1) s).
  assert (Hx0 : extends s s0) by (exists []; cbn; now rewrite app_nil_r).
  assert (Hts0 : times_stalled s0 = 0) by exact Hts.
  assert (Hp0 : educated_guess_promt s0 = None) by exact Hnone.
  clearbody s0. unfold bind.
  pose proof (decide_extends s0) as Hx1.
  pose proof (decide_times_stalled E sn task s0) as Hts1.
  pose proof (decide_prompt s0) as Hp1.
  pose proof (decide_no_return E sn task s0) as Hr1.
  unfold same in *.
  destruct (decide E sn task s0) as [data s1|s1|r1 s1|e1 s1];
    cbn [out_state] in *;
    try (split; [eapply extends_trans; eassumption|];
         split; [congruence|]; first [congruence | left; congruence]).
  2: { exfalso. now apply (Hr1 r1 s1). }
  pose proof (record_checkpoint_extends data s1) as Hx2.
  pose proof (record_checkpoint_times_stalled data s1) as Hts2.
  pose proof (record_checkpoint_prompt data s1) as Hp2.
  pose proof (record_checkpoint_effect data s1) as Hb2.
  pose proof (record_checkpoint_return data s1) as Hr2.
  unfold same, record_checkpoint_post in *.
  destruct (record_checkpoint data s1) as [[] s2|s2|r2 s2|e2 s2];
    cbn [out_state] in *; try contradiction;
    try (split; [eapply extends_trans; [|eassumption];
                 eapply extends_trans; eassumption|];
         split; [congruence|];
         first [split; [now eapply Hr2 | congruence] | left; congruence]).
  assert (Hf2 : fresh s2) by (split; congruence).
  pose proof (check_stagnation_fresh s2 Hf2) as H3.
  destruct (check_stagnation E sn s2) as [[] s3|s3|r3 s3|e3 s3];
    cbn [out_state] in *; try contradiction.
  - subst s3.
    pose proof (delegate_extends data s2) as Hx4.
    pose proof (delegate_times_stalled E data s2) as Hts4.
    pose proof (delegate_prompt data s2) as Hp4.
    pose proof (delegate_no_return E data s2) as Hr4.
    unfold same in *.
    assert (Hx : extends s s2).
    { eapply extends_trans; [|eassumption].
      eapply extends_trans; eassumption. }
    destruct (delegate E data s2) as [[] s4|s4|r4 s4|e4 s4];
      cbn [out_state] in *;
      try (split; [eapply extends_trans; eassumption|];
           split; [congruence|]; first [congruence | left; congruence]).
    exfalso. now apply (Hr4 r4 s4).
  - destruct H3 as (Hc3 & Hp3 & Ht3).
    split; [|split; assumption].
    eapply extends_trans; [|exists []; rewrite app_nil_r; exact Hc3].
    eapply extends_trans; [|eassumption].
    eapply extends_trans; eassumption.
Qed.

Lemma step_never_escalated cps0 c :
  never_escalated cps0 c -> never_escalated cps0 (step E sn task c).
Proof.
  intros (Hx & Hp & Hc).
  destruct c as [s|s|o s]; cbn [step config_state] in *.
  - destruct (total_turns s <? max_turns).
    + repeat split; assumption.
    + repeat split; try assumption; [discriminate | now left].
  - destruct (total_turns s <? max_turns); [|repeat split; assumption].
    destruct (turn_fresh s (conj Hc Hp)) as (Hx' & Hp' & Ht).
    assert (Hx'' : exists l, _checkpoints (out_state (turn E sn task s))
                             = cps0 ++ l).
    { destruct Hx as [l Hl]. destruct Hx' as [l' Hl'].
      exists (l ++ l'). now rewrite Hl', Hl, app_assoc. }
    destruct (turn E sn task s) as [[] s1|s1|r s1|e s1];
      cbn [out_state config_state] in *;
      (split; [exact Hx''|]); (split; [exact Hp'|]); try exact Ht.
    + destruct Ht as [-> Ht]. split; [discriminate | now left].
    + split; [discriminate|].
      destruct Ht as [Ht|[Ht ->]]; [now left | now right].
  - split; [exact Hx|]. split; [exact Hp | exact Hc].
Qed.

Lemma exec_never_escalated cps0 n c :
  never_escalated cps0 c -> never_escalated cps0 (exec E sn task n c).
Proof.
  revert c. induction n as [|n IH]; intros c Hc; cbn [exec]; auto.
  apply IH, step_never_escalated, Hc.
Qed.

End Fresh.

(** ** Claims *)

(** C9. If the value of [data["next_speaker"]["answer"]] equals no team
    member's name, the delegation block raises nothing and falls through:
    the instruction is sent to every agent, silently to each; no reply is
    requested; the only message appended to [orchestrated_messages] is the
    instruction itself.  A turn that reaches the block with such an answer
    ends there, and the inner loop goes on to its next test. *)
Theorem unknown_next_speaker_is_not_delegated :
  forall (E : env) (data instruction speaker : json) (s : state),
    answer data "instruction_or_question" = ok instruction ->
    answer data "next_speaker" = ok speaker ->
    (forall a, In a (_agents E) -> py_eq (JStr (name a)) speaker = false) ->
    let c := Val (none_to_empty instruction) in
    let s' :=
      set_orchestrated_messages
        (orchestrated_messages s ++ [mkMessage "assistant" c (self_name E)])
        (emit (map (fun i => ESend (mkMessage "user" c (self_name E)) i true)
                   (seq 0 (List.length (_agents E))))
              s) in
    delegate E data s = Next tt s' /\
    n_reply s' = n_reply s /\
    forall sn task s0 s1 s2,
      decide E sn task (set_total_turns (total_turns s0 + 1) s0) = Next data s1 ->
      record_checkpoint data s1 = Next tt s2 ->
      check_stagnation E sn s2 = Next tt s ->
      turn E sn task s0 = Next tt s' /\
      (total_turns s0 < max_turns ->
       step E sn task (AtInner s0) = AtInner s').
Proof.
  intros E data instruction speaker s Hi Hs Hno c s'.
  assert (Hd : delegate E data s = Next tt s').
  { unfold delegate.
    rewrite (bind_next _ _ _ _ _ (eval_ok _ _ _ Hi)).
    rewrite (bind_next _ _ _ _ _ (eval_ok _ _ _ Hs)).
    rewrite (find_speaker_unknown _ _ _ Hno).
    unfold _broadcast.
    rewrite (broadcast_from_unknown _ _ _ _ Hno), broadcast_from_all_silent.
    reflexivity. }
  split; [exact Hd|]. split; [reflexivity|].
  intros sn task s0 s1 s2 Hdec Hrec Hchk.
  assert (Ht : turn E sn task s0 = Next tt s').
  { unfold turn. rewrite bind_modify.
    rewrite (bind_next _ _ _ _ _ Hdec), (bind_next _ _ _ _ _ Hrec).
    rewrite (bind_next _ _ _ _ _ Hchk). exact Hd. }
  split; [exact Ht|].
  intros Hlt. cbn [step]. apply Z.ltb_lt in Hlt. now rewrite Hlt, Ht.
Qed.

(** C9, for a turn whose kept answer names "Nobody" to a team of one
    "Solver". *)
Lemma unknown_next_speaker_is_not_delegated_witness :
  let data := Scenario.assessment false true 60 "Nobody" "Second idea." in
  let c := Val (JStr "Second idea.") in
  exists s s',
    check_stagnation Scenario.improving_env "User"
      (out_state (record_checkpoint data
         (out_state (decide Scenario.improving_env "User" Scenario.task
            (set_total_turns 1 Scenario.round_start))))) = Next tt s /\
    turn Scenario.improving_env "User" Scenario.task Scenario.round_start
      = Next tt s' /\
    orchestrated_messages s' =
      [Scenario.briefing; mkMessage "assistant" c "Orchestrator"] /\
    n_reply s' = 0%nat /\
    skipn (List.length (trace s)) (trace s') =
      [ESend (mkMessage "user" c "Orchestrator") 0 true].
Proof.
  intros data c. eexists. eexists.
  split; [vm_compute; reflexivity|].
  match goal with
  | |- turn _ _ _ _ = Next tt ?x /\ _ =>
      assert (Ht : turn Scenario.improving_env "User" Scenario.task
                     Scenario.round_start = Next tt x)
  end.
  { refine (proj1 (proj2 (proj2
      (unknown_next_speaker_is_not_delegated Scenario.improving_env data
         (JStr "Second idea.") (JStr "Nobody") _ eq_refl eq_refl _))
      "User"%string Scenario.task Scenario.round_start _ _ _ _ _)).
    - intros a [<-|[]]. reflexivity.
    - vm_compute. reflexivity.
    - vm_compute. reflexivity.
    - vm_compute. reflexivity. }
  split; [exact Ht|]. repeat split.
Defined.



(** C10. With no client, [run_chat] returns [(False, None)] at once: no call
    leaves the orchestrator and its checkpoints and messages are as they
    were. *)
Theorem no_client_returns_false_none :
  forall (E : env) (cps : list checkpoint) (om : list message)
         (messages : option (list message)) (sender : option string),
    client_is_none E = true ->
    exists s,
      run_chat E cps om messages sender = Some (inr NoClient, s) /\
      return_value NoClient = (false, None) /\
      trace s = [] /\
      n_create s = 0%nat /\
      _checkpoints s = cps /\
      orchestrated_messages s = om.
Proof.
  intros E cps om messages sender Hnone.
  exists (initial_state cps om).
  unfold run_chat, enter. rewrite Hnone. repeat split.
Qed.

(** C10, for an orchestrator that holds a checkpoint and a message. *)
Lemma no_client_returns_false_none_witness :
  exists s,
    run_chat Scenario.no_client_env (_checkpoints Scenario.stalled_once)
      [Scenario.briefing] (Some Scenario.request) (Some "User"%string)
      = Some (inr NoClient, s) /\
    return_value NoClient = (false, None) /\
    trace s = [] /\
    n_create s = 0%nat /\
    _checkpoints s = _checkpoints Scenario.stalled_once /\
    orchestrated_messages s = [Scenario.briefing].
Proof.
  apply (no_client_returns_false_none Scenario.no_client_env
           (_checkpoints Scenario.stalled_once) [Scenario.briefing]
           (Some Scenario.request) (Some "User"%string)).
  reflexivity.
Defined.


(** C5. On the normal path, with two parsed candidates rated [e1] and [e2],
    the second candidate is kept exactly when [e2 > e1], and then the revised
    plan becomes the plan; otherwise the first candidate and the plan are
    kept.  The plan afterwards is one of the two plan texts. *)
Theorem normal_path_keeps_higher_evaluation :
  forall (E : env) (sn : string) (task : content) (s : state)
         (data data2 i1 i2 : json) (e1 e2 : Z),
    let step_prompt := StepPrompt task (team E) (names E) in
    let s1 := asked E sn s step_prompt true in
    json_loads E (reply_to E sn s step_prompt true) = Some data ->
    answer data "instruction_or_question" = ok i1 ->
    answer data "current_evaluation" = ok (JInt e1) ->
    let revise := RevisePlanPrompt (JInt e1) data (plan s) (team E) in
    let new_plan := reply_to E sn s1 revise false in
    let s2 :=
      emit (broadcast_from 0 (_agents E)
              (mkMessage "user" (NewPlanMessage new_plan) (self_name E)) [] [])
           (asked E sn s1 revise false) in
    json_loads E (reply_to E sn s2 step_prompt true) = Some data2 ->
    answer data2 "instruction_or_question" = ok i2 ->
    answer data2 "current_evaluation" = ok (JInt e2) ->
    exists s',
      normal_path E sn task s = Next (if e1 <? e2 then data2 else data) s' /\
      plan s' = (if e1 <? e2 then new_plan else plan s) /\
      (plan s' = plan s \/ plan s' = new_plan) /\
      _checkpoints s' = _checkpoints s.
Proof.
  intros E sn task s data data2 i1 i2 e1 e2 step_prompt s1 Hd Hi1 He1
    revise new_plan s2 Hd2 Hi2 He2.
  unfold normal_path. fold step_prompt.
  rewrite bind_ask, Hd.
  rewrite (bind_eval_ok _ _ _ _ Hi1), (bind_eval_ok _ _ _ _ He1), bind_gets.
  fold s1. change (plan s1) with (plan s). fold revise.
  rewrite bind_ask. fold new_plan. rewrite bind_broadcast. fold s2.
  rewrite bind_ask, Hd2.
  rewrite (bind_eval_ok _ _ _ _ Hi1), (bind_eval_ok _ _ _ _ Hi2).
  rewrite (bind_eval_ok _ _ _ _ He1), (bind_eval_ok _ _ _ _ He2).
  rewrite (bind_eval_ok _ _ _ _ He2), (bind_eval_ok _ _ _ _ He1).
  rewrite (bind_eval_ok _ _ _ _ (py_gt_int e2 e1)).
  destruct (e1 <? e2).
  - rewrite bind_modify. eexists. split; [reflexivity|]. cbn. auto.
  - eexists. split; [reflexivity|]. cbn. auto.
Qed.

(** C5, for candidates rated 40 and 60: the second is kept and "plan A"
    becomes the plan. *)
Lemma normal_path_keeps_higher_evaluation_witness :
  exists s',
    normal_path Scenario.improving_env "User" Scenario.task Scenario.round_start
      = Next (Scenario.assessment false true 60 "Nobody" "Second idea.") s' /\
    plan s' = "plan A"%string /\
    (plan s' = plan Scenario.round_start \/ plan s' = "plan A"%string) /\
    _checkpoints s' = _checkpoints Scenario.round_start.
Proof.
  apply (normal_path_keeps_higher_evaluation Scenario.improving_env "User"
           Scenario.task Scenario.round_start
           (Scenario.assessment false true 40 "Solver" "First idea.")
           (Scenario.assessment false true 60 "Nobody" "Second idea.")
           (JStr "First idea.") (JStr "Second idea.") 40 60);
    reflexivity.
Defined.


(** C4. When the last message holds a [python] or [sh] code block and some
    agent can execute code, the turn asks the three-field assessment only,
    and whatever object the oracle answers with, [next_speaker] is the name
    of the first execution-enabled agent and the instruction is the fixed
    one; the other fields are the oracle's.  An answer that does not parse
    leaves the turn, and one that is not an object cannot be assigned to. *)
Theorem fast_path_forces_first_executor :
  forall (E : env) (sn : string) (task : content) (s : state)
         (m : message) (a0 : agent) (rest : list agent),
    last_opt (orchestrated_messages s) = Some m ->
    code_blocks E (msg_content m) <> [] ->
    execution_enabled_agents E = a0 :: rest ->
    let prompt := StepPromptFast task in
    let s1 := asked E sn s prompt true in
    requested_fields prompt =
      ["is_request_satisfied"; "is_progress_being_made"; "current_evaluation"]%string /\
    match json_loads E (reply_to E sn s prompt true) with
    | None => decide E sn task s = Break s1
    | Some (JObj kvs) =>
        exists data,
          decide E sn task s = Next data s1 /\
          answer data "next_speaker" = ok (JStr (name a0)) /\
          answer data "instruction_or_question" =
            ok (JStr "Please execute the above script.") /\
          forall k, k <> "next_speaker"%string ->
                    k <> "instruction_or_question"%string ->
                    getitem data k = getitem (JObj kvs) k
    | Some _ => decide E sn task s = Raise TypeError s1
    end.
Proof.
  intros E sn task s m a0 rest Hlast Hcode Hexec prompt s1.
  split; [reflexivity|].
  unfold decide. rewrite bind_gets, Hlast, Hexec.
  destruct (code_blocks E (msg_content m)) as [|b bs] eqn:Hb; [congruence|].
  cbn [List.length]. rewrite !Nat2Z.inj_succ.
  replace (0 <? Z.succ (Z.of_nat (List.length bs))) with true
    by (symmetry; apply Z.ltb_lt; lia).
  replace (0 <? Z.succ (Z.of_nat (List.length rest))) with true
    by (symmetry; apply Z.ltb_lt; lia).
  cbn [andb]. unfold fast_path. rewrite bind_ask, Hexec.
  fold prompt. fold s1.
  destruct (json_loads E (reply_to E sn s prompt true)) as [d|]; [|reflexivity].
  destruct d; try reflexivity.
  eexists. split; [reflexivity|]. repeat split.
  - unfold answer. cbn [getitem]. rewrite assoc_set_other by discriminate.
    now rewrite assoc_set_same.
  - unfold answer. cbn [getitem]. now rewrite assoc_set_same.
  - intros k Hk1 Hk2. cbn [getitem].
    rewrite assoc_set_other by congruence.
    now rewrite assoc_set_other by congruence.
Qed.

(** C4, for a team of "Solver" and "Runner" and an oracle that names
    "Solver": the speaker is "Runner". *)
Lemma fast_path_forces_first_executor_witness :
  exists data,
    decide Scenario.runner_env "User" Scenario.task Scenario.round_start
      = Next data
          (asked Scenario.runner_env "User" Scenario.round_start
             (StepPromptFast Scenario.task) true) /\
    answer (Scenario.assessment false true 70 "Solver" "Think about it.")
      "next_speaker" = ok (JStr "Solver") /\
    answer data "next_speaker" = ok (JStr "Runner") /\
    answer data "instruction_or_question" =
      ok (JStr "Please execute the above script.").
Proof.
  destruct (fast_path_forces_first_executor Scenario.runner_env "User"
              Scenario.task Scenario.round_start Scenario.briefing
              Scenario.runner [] eq_refl ltac:(discriminate) eq_refl)
    as [_ (data & Hd & Hs & Hi & _)].
  exists data. repeat split; assumption || reflexivity.
Defined.


(** C7. [total_turns] never exceeds [max_turns = 30].  Every call of
    [run_chat] ends, with [total_turns] between 0 and 30; so it is at every
    loop head on the way; a turn adds exactly one and starting a round adds
    nothing; and with the budget spent neither loop is entered: the inner
    loop hands over to the outer one, which returns. *)
Theorem total_turns_never_exceeds_max_turns :
  forall (E : env) (cps : list checkpoint) (om : list message)
         (messages : option (list message)) (sender : option string),
    (exists o s, run_chat E cps om messages sender = Some (o, s) /\
                 0 <= total_turns s <= 30) /\
    (forall sn task s0 n,
        enter E cps om messages sender = inr (sn, task, s0) ->
        0 <= total_turns (config_state (exec E sn task n (AtOuter s0))) <= 30) /\
    (forall sn task s,
        total_turns (out_state (turn E sn task s)) = total_turns s + 1 /\
        total_turns (round_init E task s) = total_turns s) /\
    (forall sn task s,
        30 <= total_turns s ->
        step E sn task (AtInner s) = AtOuter s /\
        step E sn task (AtOuter s) = Finished (inr BudgetExhausted) s).
Proof.
  intros E cps om messages sender.
  assert (Hinv : forall sn task s0 n,
             enter E cps om messages sender = inr (sn, task, s0) ->
             within_budget (exec E sn task n (AtOuter s0))).
  { intros sn task s0 n He. apply exec_within_budget.
    unfold within_budget. cbn [config_state].
    rewrite (enter_total_turns _ _ _ _ _ _ _ _ He). unfold max_turns. lia. }
  repeat split.
  - unfold run_chat.
    destruct (enter E cps om messages sender) as [[o s]|[[sn task] s0]] eqn:He.
    + exists o, s. split; [reflexivity|].
      revert He. unfold enter. destruct (client_is_none E).
      * intros [= <- <-]. cbn. lia.
      * destruct (pop _) as [[ms tm]|]; [destruct sender|];
          intros [= <- <-]; cbn; lia.
    + destruct (exec_finishes E sn task run_fuel (AtOuter s0)) as (o & s & Hx).
      * cbn [distance]. unfold remaining.
        rewrite (enter_total_turns _ _ _ _ _ _ _ _ He). vm_compute. lia.
      * exists o, s. rewrite Hx. split; [reflexivity|].
        specialize (Hinv sn task s0 run_fuel eq_refl). rewrite Hx in Hinv.
        exact Hinv.
  - apply (Hinv sn task s0 n H).
  - apply (Hinv sn task s0 n H).
  - apply turn_total_turns.
  - cbn [step]. destruct (Z.ltb_spec (total_turns s) max_turns) as [Hlt|Hge];
      [unfold max_turns in Hlt; lia | reflexivity].
  - cbn [step]. destruct (Z.ltb_spec (total_turns s) max_turns) as [Hlt|Hge];
      [unfold max_turns in Hlt; lia | reflexivity].
Qed.

(** C7, on the run whose every answer fails to parse. *)
Lemma total_turns_never_exceeds_max_turns_witness :
  exists o s,
    run_chat Scenario.garbled_env [] [] (Some Scenario.request) (Some "User"%string)
      = Some (o, s) /\
    0 <= total_turns s <= 30.
Proof.
  exact (proj1 (total_turns_never_exceeds_max_turns Scenario.garbled_env [] []
                  (Some Scenario.request) (Some "User"%string))).
Defined.


(** C8. A run that leaves by line 495, the budget spent without a [return]
    at line 381 or 433, has used all 30 turns and returns
    [(True, "TERMINATE")], the value of the two successful returns. *)
Theorem budget_exhaustion_returns_terminate :
  forall (E : env) (cps : list checkpoint) (om : list message)
         (messages : option (list message)) (sender : option string)
         (s : state),
    run_chat E cps om messages sender = Some (inr BudgetExhausted, s) ->
    total_turns s = 30 /\
    return_value BudgetExhausted = (true, Some "TERMINATE"%string) /\
    return_value BudgetExhausted = return_value Satisfied /\
    return_value BudgetExhausted = return_value EducatedGuess.
Proof.
  intros E cps om messages sender s Hrun.
  split; [|repeat split].
  unfold run_chat in Hrun.
  destruct (enter E cps om messages sender) as [[o s0]|[[sn task] s0]] eqn:He.
  - injection Hrun as -> ->. revert He. unfold enter.
    destruct (client_is_none E); [discriminate|].
    destruct (pop _) as [[ms tm]|]; [destruct sender|]; discriminate.
  - destruct (exec E sn task run_fuel (AtOuter s0)) as [| |o s1] eqn:Hx;
      try discriminate.
    injection Hrun as -> ->.
    assert (Hc : exhausted_at_cap (exec E sn task run_fuel (AtOuter s0))).
    { apply exec_exhausted_at_cap. split.
      - unfold within_budget. cbn [config_state].
        rewrite (enter_total_turns _ _ _ _ _ _ _ _ He). unfold max_turns. lia.
      - discriminate. }
    rewrite Hx in Hc. destruct Hc as [_ Hc]. now apply Hc.
Qed.

(** C8, on a run whose every answer fails to parse: thirty abandoned turns
    and [(True, "TERMINATE")]. *)
Lemma budget_exhaustion_returns_terminate_witness :
  exists s,
    run_chat Scenario.garbled_env [] [] (Some Scenario.request) (Some "User"%string)
      = Some (inr BudgetExhausted, s) /\
    (total_turns s = 30 /\
     return_value BudgetExhausted = (true, Some "TERMINATE"%string) /\
     return_value BudgetExhausted = return_value Satisfied /\
     return_value BudgetExhausted = return_value EducatedGuess).
Proof.
  eexists. split; [vm_compute; reflexivity|].
  refine (budget_exhaustion_returns_terminate Scenario.garbled_env [] []
            (Some Scenario.request) (Some "User"%string) _ _).
  vm_compute. reflexivity.
Defined.

(** C2, as stated, fails: the evaluation is stored as the oracle gives it.
    Here the first assessment rates the request at 150 and reports it
    satisfied, and the checkpoint of that turn holds 150. *)
Lemma checkpoint_score_out_of_range :
  exists s,
    run_chat Scenario.overrated_env [] [] (Some Scenario.request)
      (Some "User"%string) = Some (inr Satisfied, s) /\
    map cp_evaluation (_checkpoints s) = [JInt 150] /\
    ~ checkpoint_scores score_in_range (_checkpoints s).
Proof.
  eexists. split; [vm_compute; reflexivity|]. split; [reflexivity|].
  intros H. inversion H as [|cp l (n & Hn & Hr) _]; subst.
  cbn in Hn. injection Hn as <-. lia.
Qed.

(** C2, amended.  A checkpoint stores the [current_evaluation] answer of a
    parsed response as it is: whatever holds of every score the oracle gives
    (and of the scores [self._checkpoints] held before the call) holds of
    every score in the checkpoints when [run_chat] ends; so they are integers
    from 1 to 100 when the oracle's are. *)
Theorem checkpoint_scores_are_the_oracle_scores :
  forall (E : env) (P : json -> Prop) (cps : list checkpoint)
         (om : list message) (messages : option (list message))
         (sender : option string) (o : exc + return_site) (s : state),
    oracle_scores E P ->
    checkpoint_scores P cps ->
    run_chat E cps om messages sender = Some (o, s) ->
    checkpoint_scores P (_checkpoints s).
Proof.
  intros E P cps om messages sender o s HP Hcps Hrun.
  unfold run_chat in Hrun.
  pose proof (enter_checkpoints E cps om messages sender) as He.
  destruct (enter E cps om messages sender) as [[o0 s0]|[[sn task] s0]].
  - injection Hrun as <- <-. now rewrite He.
  - pose proof (exec_scores E P HP sn task run_fuel (AtOuter s0)) as Hx.
    cbn [config_state] in Hx. rewrite He in Hx. specialize (Hx Hcps).
    destruct (exec E sn task run_fuel (AtOuter s0)); try discriminate.
    injection Hrun as <- <-. exact Hx.
Qed.

(** C2 amended, on a run whose ratings are 40, 60 and 70. *)
Lemma checkpoint_scores_are_the_oracle_scores_witness :
  exists o s,
    run_chat Scenario.rated_env [] [] (Some Scenario.request)
      (Some "User"%string) = Some (o, s) /\
    map cp_evaluation (_checkpoints s) = [JInt 60; JInt 70] /\
    checkpoint_scores score_in_range (_checkpoints s).
Proof.
  eexists. eexists. split; [vm_compute; reflexivity|]. split; [reflexivity|].
  refine (checkpoint_scores_are_the_oracle_scores Scenario.rated_env
            score_in_range [] [] (Some Scenario.request) (Some "User"%string)
            _ _ _ _ _).
  - intros n messages d v.
    do 8 (destruct n as [|n];
          [cbn; (discriminate ||
                 (intros [= <-] [= <-]; eexists; split;
                    [reflexivity | split; discriminate]))|]).
    cbn. destruct n; discriminate.
  - constructor.
  - vm_compute. reflexivity.
Defined.

(** C6. The full re-plan of lines 449-474 leaves with [break] and an empty
    checkpoint log, [times_stalled] being what it was.  Nothing in the loops
    lowers [times_stalled]: the test of lines 391-394 adds one when the last
    three scores do not improve, and the rest of a turn and the start of a
    round leave it alone.  A parsed "no" to the educated-guess question,
    after a second non-improving window, leads to that re-plan. *)
Theorem replan_clears_checkpoints_not_times_stalled :
  forall (E : env) (sn : string) (task : content),
    (forall s, exists s',
        full_replan E sn s = Break s' /\
        _checkpoints s' = [] /\
        List.length (_checkpoints s') = 0%nat /\
        times_stalled s' = times_stalled s) /\
    (forall s,
        times_stalled (out_state (check_stagnation E sn s)) =
        times_stalled s + (if stagnant (_checkpoints s) then 1 else 0)) /\
    (forall s data,
        times_stalled (out_state (decide E sn task s)) = times_stalled s /\
        times_stalled (out_state (record_checkpoint data s)) = times_stalled s /\
        times_stalled (out_state (delegate E data s)) = times_stalled s /\
        times_stalled (round_init E task s) = times_stalled s) /\
    (forall c n,
        times_stalled (config_state c) <=
        times_stalled (config_state (exec E sn task n c))) /\
    (forall s d g,
        stagnant (_checkpoints s) = true ->
        1 <= times_stalled s ->
        let prompt := EducatedGuessPrompt (facts s) in
        let s1 := set_educated_guess_promt (Some prompt)
                    (set_times_stalled (times_stalled s + 1) s) in
        json_loads E (reply_to E sn s1 prompt true) = Some d ->
        answer d "has_educated_guesses" = ok g ->
        truthy g = false ->
        exists s',
          check_stagnation E sn s = Break s' /\
          _checkpoints s' = [] /\
          times_stalled s' = times_stalled s + 1).
Proof.
  intros E sn task. split; [|split; [|split; [|split]]].
  - intros s.
    destruct (full_replan_break E sn s) as (s' & Hb & Hc & Ht & _).
    exists s'. rewrite Hc. auto.
  - apply check_stagnation_times_stalled.
  - intros s data. repeat split.
    + apply decide_times_stalled.
    + apply record_checkpoint_times_stalled.
    + apply delegate_times_stalled.
  - intros c n. apply exec_times_stalled.
  - intros s d g. apply check_stagnation_replans.
Qed.

(** C6, on a third flat checkpoint with one window already counted: the
    oracle has no educated guess, the plan is rewritten and the log is
    empty, [times_stalled] going from 1 to 2 by the test alone. *)
Lemma replan_clears_checkpoints_not_times_stalled_witness :
  stagnant (_checkpoints Scenario.recorded) = true /\
  times_stalled Scenario.recorded = 1 /\
  exists s',
    check_stagnation Scenario.replan_env "User" Scenario.recorded = Break s' /\
    _checkpoints s' = [] /\
    times_stalled s' = times_stalled Scenario.recorded + 1.
Proof.
  split; [reflexivity|]. split; [reflexivity|].
  refine (proj2 (proj2 (proj2 (proj2
            (replan_clears_checkpoints_not_times_stalled Scenario.replan_env
               "User" Scenario.task))))
            Scenario.recorded (Scenario.guess false) (JBool false) _ _ _ _ _).
  - reflexivity.
  - discriminate.
  - reflexivity.
  - reflexivity.
  - reflexivity.
Defined.

(** C3. In every run, at every turn: when a call of the turn that asked
    for JSON got text that does not parse, the turn is left by [break] with
    no checkpoint recorded and the facts, the plan, the context log,
    [times_stalled] and [stalled_count] as they were; the turn is counted.
    The call was one of the assessments (the educated-guess question is
    never put in a run, see C1).  The inner loop hands over to the outer one,
    which, while turns remain, starts a round whose briefing is made of the
    facts and the plan as they were before the turn. *)
Theorem parse_failure_abandons_the_turn :
  forall (E : env) (cps : list checkpoint) (om : list message)
         (messages : option (list message)) (sender : option string)
         (sn : string) (task : content) (s0 : state) (n : nat) (s : state),
    enter E cps om messages sender = inr (sn, task, s0) ->
    exec E sn task n (AtOuter s0) = AtInner s ->
    abandons_without_checkpoint E sn task s /\
    forall (evs : list event) (q : list message) (r : string),
      trace (out_state (turn E sn task s)) = trace s ++ evs ->
      In (ECreate q true r) evs ->
      json_loads E r = None ->
      exists s',
        turn E sn task s = Break s' /\
        total_turns s' = total_turns s + 1 /\
        stalled_count s' = stalled_count s /\
        educated_guess_promt s' = None /\
        (asks sn q (StepPromptFast task) \/
         asks sn q (StepPrompt task (team E) (names E))) /\
        (total_turns s < max_turns ->
         step E sn task (AtInner s) = AtOuter s') /\
        (total_turns s' < max_turns ->
         step E sn task (AtOuter s') = AtInner (round_init E task s')) /\
        orchestrated_messages (round_init E task s') =
          [mkMessage "assistant"
             (Briefing task (team E) (facts s) (plan s)) (self_name E)] /\
        _checkpoints (round_init E task s') = _checkpoints s.
Proof.
  intros E cps om messages sender sn task s0 n s He Hx.
  assert (Hfresh : fresh s).
  { assert (H0 : never_escalated cps (AtOuter s0)).
    { revert He. unfold enter. destruct (client_is_none E); [discriminate|].
      destruct (pop _) as [[ms tm]|]; [|discriminate].
      destruct sender; [|discriminate].
      intros [= <- <- <-]. unfold never_escalated. cbn.
      repeat split. exists []. now rewrite app_nil_r. }
    pose proof (exec_never_escalated E sn task cps n _ H0) as H.
    rewrite Hx in H. destruct H as (_ & Hp & Hts). split; assumption. }
  assert (Hcases : forall evs q r,
             trace (out_state (turn E sn task s)) = trace s ++ evs ->
             In (ECreate q true r) evs ->
             json_loads E r = None ->
             exists s',
               turn E sn task s = Break s' /\
               facts s' = facts s /\
               orchestrated_messages s' = orchestrated_messages s /\
               total_turns s' = total_turns s + 1 /\
               _checkpoints s' = _checkpoints s /\
               plan s' = plan s /\
               times_stalled s' = times_stalled s /\
               stalled_count s' = stalled_count s /\
               (asks sn q (StepPromptFast task) \/
                asks sn q (StepPrompt task (team E) (names E)))).
  { intros evs q r Htr Hin Hnone.
    destruct (turn_parse_failure E sn task s evs q r Htr Hin Hnone)
      as (s' & Hturn & Hf & Hm & Hn &
          [(Hc & Hp & Hts & Hk & Hask)|(cp & c & _ & _ & _ & Hg & _)]).
    - exists s'. repeat split; assumption.
    - destruct (turn_fresh E sn task s Hfresh) as (_ & Hnone' & _).
      rewrite Hturn in Hnone'. cbn [out_state] in Hnone'. congruence. }
  split.
  - intros evs q r Htr Hin Hnone.
    destruct (Hcases evs q r Htr Hin Hnone)
      as (s' & Hturn & Hf & Hm & Hn & Hc & Hp & Hts & _).
    exists s'. repeat split; assumption.
  - intros evs q r Htr Hin Hnone.
    destruct (Hcases evs q r Htr Hin Hnone)
      as (s' & Hturn & Hf & Hm & Hn & Hc & Hp & Hts & Hk & Hask).
    exists s'. split; [exact Hturn|]. split; [exact Hn|]. split; [exact Hk|].
    split.
    { destruct (turn_fresh E sn task s Hfresh) as (_ & Hnone' & _).
      now rewrite Hturn in Hnone'. }
    split; [exact Hask|]. split.
    { intros Hlt. cbn [step]. apply Z.ltb_lt in Hlt. now rewrite Hlt, Hturn. }
    split.
    { intros Hlt. cbn [step]. apply Z.ltb_lt in Hlt. now rewrite Hlt. }
    split.
    + unfold round_init.
      cbn [orchestrated_messages set_orchestrated_messages emit
           set_stalled_count facts plan app].
      now rewrite Hf, Hp.
    + rewrite <- Hc. reflexivity.
Qed.

(** C3, on the first turn of the run whose every answer is text that does
    not parse: the first assessment fails, the turn is left by [break] with
    no checkpoint, and the inner loop hands over to the outer one. *)
Lemma parse_failure_abandons_the_turn_witness :
  let E := Scenario.garbled_env in
  let s0 := out_state (bootstrap E "User" Scenario.task [] (initial_state [] [])) in
  let s := round_init E Scenario.task s0 in
  enter E [] [] (Some Scenario.request) (Some "User"%string)
    = inr ("User"%string, Scenario.task, s0) /\
  exec E "User" Scenario.task 1 (AtOuter s0) = AtInner s /\
  exists s',
    turn E "User" Scenario.task s = Break s' /\
    total_turns s' = 1 /\
    _checkpoints (round_init E Scenario.task s') = [] /\
    step E "User" Scenario.task (AtInner s) = AtOuter s'.
Proof.
  intros E s0 s.
  split; [reflexivity|]. split; [reflexivity|].
  destruct (parse_failure_abandons_the_turn E [] [] (Some Scenario.request)
              (Some "User"%string) "User"%string Scenario.task s0 1 s
              eq_refl eq_refl) as [_ H].
  destruct (H [ECreate (orchestrated_messages s ++
                        [mkMessage "user"
                           (StepPrompt Scenario.task (team E) (names E))
                           "User"])
                 true "not json"%string]
              (orchestrated_messages s ++
               [mkMessage "user"
                  (StepPrompt Scenario.task (team E) (names E)) "User"])
              "not json"%string)
    as (s' & Hturn & Hn & _ & _ & _ & Hstep & _ & _ & Hc).
  - vm_compute. reflexivity.
  - left. reflexivity.
  - reflexivity.
  - exists s'. split; [exact Hturn|]. split; [exact Hn|].
    split; [exact Hc|]. apply Hstep. vm_compute. reflexivity.
Defined.

(** C1.  Three turns rated 50, 50 and 50, none satisfied.  The spec has the
    third checkpoint make [times_stalled] 1 and the turn go on to broadcast
    and delegate; the run ends there with [UnboundLocalError], raised at line
    414, with the two replies of the first two turns requested and none in
    the third. *)
Theorem first_stagnation_raises_unbound_local :
  exists s,
    run_chat Scenario.flat_env [] [] (Some Scenario.request)
      (Some "User"%string) = Some (inl UnboundLocalError, s) /\
    total_turns s = 3 /\
    map cp_evaluation (_checkpoints s) = [JInt 50; JInt 50; JInt 50] /\
    times_stalled s = 1 /\
    educated_guess_promt s = None /\
    n_reply s = 2%nat.
Proof.
  eexists. split; [vm_compute; reflexivity|]. repeat split.
Qed.

(** ** Further properties *)

(** *** _broadcast *)

(** X1. [_broadcast] sends the message once to each agent that is not
    excluded, in the order of [self._agents], silently unless the agent's
    name is in [out_loud]; with nothing excluded there are as many sends as
    agents. *)
Theorem broadcast_sends_once_each :
  forall (agents : list agent) (m : message) (out_loud : list json)
         (exclude : list nat) (i : nat),
    broadcast_from i agents m out_loud exclude =
    map (fun ka => ESend m (fst ka) (negb (str_in (name (snd ka)) out_loud)))
        (filter (fun ka => negb (existsb (Nat.eqb (fst ka)) exclude))
                (combine (seq i (List.length agents)) agents)) /\
    List.length (broadcast_from i agents m out_loud []) = List.length agents.
Proof.
  intros agents m out_loud exclude i. split.
  - revert i. induction agents as [|a rest IH]; intros i; [reflexivity|].
    cbn [broadcast_from List.length seq combine filter fst snd].
    rewrite IH. now destruct (existsb (Nat.eqb i) exclude).
  - revert i. induction agents as [|a rest IH]; intros i; [reflexivity|].
    cbn. now rewrite IH.
Qed.

(** *** stalled_count *)

Lemma stalled_count_kept_refl s : stalled_count_kept s s.
Proof. intros H. exact H. Qed.

Lemma stalled_count_kept_trans a b c :
  stalled_count_kept a b -> stalled_count_kept b c -> stalled_count_kept a c.
Proof. unfold stalled_count_kept. auto. Qed.

Ltac keeps_stalled_count :=
  keeps_blocks stalled_count_kept_refl stalled_count_kept_trans
    ltac:(intros; unfold stalled_count_kept; cbn; lia).

Section StalledCount.

Variables (E : env) (sn : string) (task : content).

Lemma turn_stalled_count : keeps stalled_count_kept (turn E sn task).
Proof. unfold turn. keeps_stalled_count. Qed.

Lemma step_stalled_count c :
  0 <= stalled_count (config_state c) ->
  0 <= stalled_count (config_state (step E sn task c)).
Proof.
  destruct c as [s|s|o s]; cbn [step config_state]; auto.
  - destruct (total_turns s <? max_turns); cbn; intros; lia.
  - destruct (total_turns s <? max_turns); auto.
    pose proof (turn_stalled_count s) as H.
    destruct (turn E sn task s); apply H.
Qed.

Lemma exec_stalled_count n c :
  0 <= stalled_count (config_state c) ->
  0 <= stalled_count (config_state (exec E sn task n c)).
Proof.
  revert c. induction n as [|n IH]; intros c Hc; cbn [exec]; auto.
  apply IH, step_stalled_count, Hc.
Qed.

End StalledCount.

(** X2. [stalled_count] is never negative: it is zero when a round starts,
    a turn that reports progress lowers it no further than zero, and it is
    at or above zero at every loop head of every run. *)
Theorem stalled_count_is_never_negative :
  forall (E : env) (cps : list checkpoint) (om : list message)
         (messages : option (list message)) (sender : option string)
         (sn : string) (task : content) (s0 : state) (n : nat),
    enter E cps om messages sender = inr (sn, task, s0) ->
    0 <= stalled_count (config_state (exec E sn task n (AtOuter s0))) /\
    forall s, stalled_count (round_init E task s) = 0.
Proof.
  intros E cps om messages sender sn task s0 n He. split; [|reflexivity].
  apply exec_stalled_count. cbn [config_state].
  revert He. unfold enter. destruct (client_is_none E); [discriminate|].
  destruct (pop _) as [[ms tm]|]; [|discriminate].
  destruct sender; [|discriminate].
  intros [= <- <- <-]. cbn. lia.
Qed.

(** *** The return value *)

Lemma exec_has_client E sn task n c :
  has_client c -> has_client (exec E sn task n c).
Proof.
  revert c. induction n as [|n IH]; intros c Hc; cbn [exec]; auto.
  apply IH. intros s0.
  destruct c as [s|s|o s]; cbn [step]; auto.
  - destruct (total_turns s <? max_turns); discriminate.
  - destruct (total_turns s <? max_turns); [|discriminate].
    destruct (turn E sn task s) as [a s1|s1|r s1|e s1] eqn:Ht;
      try discriminate.
    intros [= -> _].
    destruct (turn_return_sites _ _ _ _ _ _ Ht); discriminate.
Qed.

(** X3. With a client, [run_chat] never returns [(False, None)]: every
    [return] it reaches, by satisfaction, by educated guess or by the spent
    budget, gives back [(True, "TERMINATE")]. *)
Theorem run_with_client_returns_terminate :
  forall (E : env) (cps : list checkpoint) (om : list message)
         (messages : option (list message)) (sender : option string)
         (r : return_site) (s : state),
    client_is_none E = false ->
    run_chat E cps om messages sender = Some (inr r, s) ->
    r <> NoClient /\ return_value r = (true, Some "TERMINATE"%string).
Proof.
  intros E cps om messages sender r s Hc Hrun.
  assert (Hr : r <> NoClient).
  { revert Hrun. unfold run_chat, enter. rewrite Hc.
    destruct (pop _) as [[ms tm]|]; [|discriminate].
    destruct sender as [sn|]; [|discriminate].
    set (s0 := out_state _).
    pose proof (exec_has_client E sn (msg_content tm) run_fuel (AtOuter s0)) as H.
    destruct (exec E sn (msg_content tm) run_fuel (AtOuter s0)) as [| |o s1];
      try discriminate.
    intros [= -> ->] ->. apply (H ltac:(intros ?; discriminate) s eq_refl). }
  split; [exact Hr|]. destruct r; try reflexivity. contradiction.
Qed.

(** *** The escalation in a whole run *)

(** X4. No run of [run_chat] gets past its first non-improving window:
    the run never returns by the educated guess of line 433, its checkpoints
    are never cleared (those it ends with are those it began with and more),
    and [times_stalled] ends at 0, or at 1 in a run that ended with the
    [UnboundLocalError] of line 414. *)
Theorem escalation_is_never_reached :
  forall (E : env) (cps : list checkpoint) (om : list message)
         (messages : option (list message)) (sender : option string)
         (o : exc + return_site) (s : state),
    run_chat E cps om messages sender = Some (o, s) ->
    o <> inr EducatedGuess /\
    (times_stalled s = 0 \/
     (times_stalled s = 1 /\ o = inl UnboundLocalError)) /\
    educated_guess_promt s = None /\
    exists l, _checkpoints s = cps ++ l.
Proof.
  intros E cps om messages sender o s. unfold run_chat, enter.
  destruct (client_is_none E).
  { intros [= <- <-]. cbn. repeat split; try discriminate; auto.
    exists []. now rewrite app_nil_r. }
  destruct (pop _) as [[ms tm]|].
  2: { intros [= <- <-]. cbn. repeat split; try discriminate; auto.
       exists []. now rewrite app_nil_r. }
  destruct sender as [sn|].
  2: { intros [= <- <-]. cbn. repeat split; try discriminate; auto.
       exists []. now rewrite app_nil_r. }
  set (s0 := out_state _).
  assert (H0 : never_escalated cps (AtOuter s0)).
  { repeat split. exists []. now rewrite app_nil_r. }
  pose proof (exec_never_escalated E sn (msg_content tm) cps run_fuel _ H0) as H.
  destruct (exec E sn (msg_content tm) run_fuel (AtOuter s0)) as [| |o1 s1];
    try discriminate.
  intros [= <- <-]. destruct H as (Hx & Hp & Ho & Ht).
  cbn [config_state] in *. auto.
Qed.

(** *** The calls of a run *)

Lemma calls_app a b : calls (a ++ b) = (calls a + calls b)%nat.
Proof. unfold calls. now rewrite filter_app, length_app. Qed.

Lemma replies_app a b : replies (a ++ b) = (replies a + replies b)%nat.
Proof. unfold replies. now rewrite filter_app, length_app. Qed.

Lemma calls_broadcast i agents m out_loud exclude :
  calls (broadcast_from i agents m out_loud exclude) = 0%nat.
Proof.
  unfold calls. revert i. induction agents as [|a rest IH]; intros i; cbn; auto.
  rewrite filter_app, length_app, IH.
  now destruct (existsb (Nat.eqb i) exclude).
Qed.

Lemma replies_broadcast i agents m out_loud exclude :
  replies (broadcast_from i agents m out_loud exclude) = 0%nat.
Proof.
  unfold replies. revert i.
  induction agents as [|a rest IH]; intros i; cbn; auto.
  rewrite filter_app, length_app, IH.
  now destruct (existsb (Nat.eqb i) exclude).
Qed.

Lemma calls_resets l : calls (map EReset l) = 0%nat /\ replies (map EReset l) = 0%nat.
Proof. unfold calls, replies. induction l; cbn; auto. Qed.

Ltac count_calls :=
  unfold calls_within; norm_goal;
  repeat rewrite calls_app; repeat rewrite replies_app;
  repeat rewrite calls_broadcast; repeat rewrite replies_broadcast;
  cbn [calls replies filter is_create is_generate_reply List.length];
  lia.

Lemma calls_within_bind {A B : Type} kc kr kc' kr' (m : M A) (k : A -> M B) :
  (forall s, calls_within kc kr s (m s)) ->
  (forall a s, calls_within kc' kr' s (k a s)) ->
  forall s, calls_within (kc + kc') (kr + kr') s (bind m k s).
Proof.
  intros Hm Hk s. unfold bind. specialize (Hm s).
  destruct (m s) as [a s1|s1|r s1|e s1]; unfold calls_within in *;
    cbn [out_state] in *; try lia.
  specialize (Hk a s1). lia.
Qed.

Section Calls.

Variables (E : env) (sn : string) (task : content).

Lemma decide_calls s : calls_within 3 0 s (decide E sn task s).
Proof. unfold decide, fast_path, normal_path. explore; count_calls. Qed.

Lemma record_checkpoint_calls data s :
  calls_within 0 0 s (record_checkpoint data s).
Proof. unfold record_checkpoint, save_checkpoint. explore; count_calls. Qed.

Lemma check_stagnation_calls s :
  calls_within 3 0 s (check_stagnation E sn s).
Proof.
  unfold check_stagnation, escalate, full_replan, append_message.
  explore; count_calls.
Qed.

Lemma delegate_calls data s : calls_within 0 1 s (delegate E data s).
Proof. unfold delegate, append_message. explore; count_calls. Qed.

Lemma turn_calls s : calls_within 6 1 s (turn E sn task s).
Proof.
  unfold turn. rewrite bind_modify.
  match goal with
  | |- calls_within _ _ _ (?m ?s1) =>
      assert (H : forall s2, calls_within 6 1 s2 (m s2)); [|exact (H s1)]
  end.
  apply (calls_within_bind 3 0 3 1); [apply decide_calls|]. intros data.
  apply (calls_within_bind 0 0 3 1); [apply record_checkpoint_calls|].
  intros _.
  apply (calls_within_bind 3 0 0 1); [apply check_stagnation_calls|].
  intros _. apply delegate_calls.
Qed.

Lemma step_calls_bounded c :
  calls_bounded c -> calls_bounded (step E sn task c).
Proof.
  unfold calls_bounded. destruct c as [s|s|o s]; cbn [step config_state]; auto.
  - destruct (total_turns s <? max_turns); cbn [config_state]; auto.
    unfold round_init. norm_goal.
    repeat rewrite calls_app. repeat rewrite replies_app.
    rewrite calls_broadcast, replies_broadcast.
    destruct (calls_resets (seq 0 (List.length (_agents E)))) as [-> ->].
    lia.
  - destruct (total_turns s <? max_turns); cbn [config_state]; auto.
    pose proof (turn_calls s) as [Hc Hr].
    pose proof (turn_cases E sn task s) as Ht.
    destruct (turn E sn task s); cbn [out_state config_state] in *; lia.
Qed.

Lemma exec_calls_bounded n c :
  calls_bounded c -> calls_bounded (exec E sn task n c).
Proof.
  revert c. induction n as [|n IH]; intros c Hc; cbn [exec]; auto.
  apply IH, step_calls_bounded, Hc.
Qed.

End Calls.

(** X5. A run makes at most two calls of [self.client.create] before the
    loops and six in a turn, and requests at most one reply in a turn: 182
    calls and 30 replies at most in any run. *)
Theorem calls_of_a_run_are_bounded :
  forall (E : env) (cps : list checkpoint) (om : list message)
         (messages : option (list message)) (sender : option string)
         (o : exc + return_site) (s : state),
    run_chat E cps om messages sender = Some (o, s) ->
    Z.of_nat (calls (trace s)) <= 2 + 6 * total_turns s /\
    Z.of_nat (replies (trace s)) <= total_turns s /\
    (calls (trace s) <= 182)%nat /\
    (replies (trace s) <= 30)%nat.
Proof.
  intros E cps om messages sender o s. unfold run_chat, enter.
  destruct (client_is_none E).
  { intros [= <- <-]. cbn. lia. }
  destruct (pop _) as [[ms tm]|].
  2: { intros [= <- <-]. cbn. lia. }
  destruct sender as [sn|].
  2: { intros [= <- <-]. cbn. lia. }
  set (s0 := out_state _).
  assert (H0 : calls_bounded (AtOuter s0)) by (unfold calls_bounded; cbn; lia).
  assert (B0 : within_budget (AtOuter s0))
    by (unfold within_budget, max_turns; cbn; lia).
  pose proof (exec_calls_bounded E sn (msg_content tm) run_fuel _ H0) as H.
  pose proof (exec_within_budget E sn (msg_content tm) run_fuel _ B0) as B.
  destruct (exec E sn (msg_content tm) run_fuel (AtOuter s0)) as [| |o1 s1];
    try discriminate.
  intros [= <- <-]. unfold calls_bounded, within_budget, max_turns in *.
  cbn [config_state] in *. lia.
Qed.

(** *** The window of three scores *)

Lemma lastn_three {A : Type} (l : list A) (x y z : A) :
  lastn 3 (l ++ [x; y; z]) = [x; y; z].
Proof.
  unfold lastn. rewrite length_app. cbn [List.length].
  replace (List.length l + 3 - 3)%nat with (List.length l + 0)%nat by lia.
  rewrite skipn_app, Nat.add_0_r, skipn_all, Nat.sub_diag. reflexivity.
Qed.

(** X6. The trend test looks at the last three checkpoints only: with
    integer scores [a], [b], [c] it fires exactly when [a >= b >= c],
    whatever came before; with fewer than three checkpoints it never
    fires. *)
Theorem stagnation_is_a_window_of_three :
  forall (l : list checkpoint) (p1 p2 p3 : string) (r1 r2 r3 : json)
         (a b c : Z),
    stagnant (l ++ [mkCheckpoint p1 (JInt a) r1; mkCheckpoint p2 (JInt b) r2;
                    mkCheckpoint p3 (JInt c) r3])
      = (b <=? a) && (c <=? b) /\
    forall cps, (List.length cps < 3)%nat -> stagnant cps = false.
Proof.
  intros l p1 p2 p3 r1 r2 r3 a b c. split.
  - unfold stagnant. rewrite lastn_three, length_app.
    replace (3 <=? Z.of_nat (List.length l + _)) with true
      by (symmetry; apply Z.leb_le; cbn [List.length]; lia).
    cbn [map cp_evaluation non_increasing andb].
    change (py_ge (JInt a) (JInt b)) with (@ok bool (b <=? a)).
    destruct (b <=? a); [|reflexivity]. cbn [non_increasing].
    change (py_ge (JInt b) (JInt c)) with (@ok bool (c <=? b)).
    now destruct (c <=? b).
  - intros cps Hlen. unfold stagnant.
    replace (3 <=? Z.of_nat (List.length cps)) with false
      by (symmetry; apply Z.leb_gt; lia).
    reflexivity.
Qed.

(** *** The choice of the path *)

Lemma positive_length_filter {A : Type} (f : A -> bool) (l : list A) :
  (0 <? Z.of_nat (List.length (filter f l))) = existsb f l.
Proof.
  induction l as [|x l IH]; [reflexivity|]. cbn [filter existsb].
  destruct (f x); [|exact IH]. cbn [List.length orb].
  apply Z.ltb_lt. lia.
Qed.

(** X7. The fast path is taken exactly when the last message of the context
    log holds a block tagged [python] or [sh] and some agent has an
    execution configuration; with code and no such agent, or with blocks in
    other languages only, the turn takes the normal path.  An empty context
    log raises [IndexError]. *)
Theorem decide_chooses_the_path :
  forall (E : env) (sn : string) (task : content) (s : state),
    decide E sn task s =
    match last_opt (orchestrated_messages s) with
    | None => Raise IndexError s
    | Some m =>
        if existsb is_executable (extract_code E (msg_content m))
           && existsb code_execution_config_is_dict (_agents E)
        then fast_path E sn task s
        else normal_path E sn task s
    end.
Proof.
  intros E sn task s. unfold decide. rewrite bind_gets.
  destruct (last_opt (orchestrated_messages s)) as [m|]; [|reflexivity].
  unfold code_blocks, execution_enabled_agents.
  rewrite !positive_length_filter. unfold is_executable.
  destruct (existsb _ _ && existsb _ _); reflexivity.
Qed.

(** *** What a turn leaves alone *)

Section Frames.

Variables (E : env) (sn : string) (task : content).

Lemma decide_plan s : decide_frame E sn task s (decide E sn task s).
Proof.
  unfold decide, fast_path, normal_path.
  explore; unfold decide_frame, asked, reply_to; norm_goal;
    first [left; reflexivity | right; eexists; eexists; reflexivity].
Qed.

Lemma record_checkpoint_one_more data :
  keeps same_or_one_more (record_checkpoint data).
Proof.
  intros s. unfold record_checkpoint, save_checkpoint.
  explore; unfold same_or_one_more; norm_goal;
    first [left; reflexivity | right; eexists; split; reflexivity].
Qed.

Lemma same_or_cleared_refl s : same_or_cleared s s.
Proof. now left. Qed.

Lemma same_or_cleared_trans a b c :
  same_or_cleared a b -> same_or_cleared b c -> same_or_cleared a c.
Proof. unfold same_or_cleared. intros [H|H] [H'|H']; rewrite H'; auto. Qed.

Lemma check_stagnation_same_or_cleared :
  keeps same_or_cleared (check_stagnation E sn).
Proof.
  keeps_blocks same_or_cleared_refl same_or_cleared_trans
    ltac:(intros; unfold same_or_cleared; cbn; auto).
Qed.

Lemma delegate_checkpoints data :
  keeps (same _checkpoints) (delegate E data).
Proof. keeps_same _checkpoints. Qed.

End Frames.

(** X8. The part of a turn that questions the oracle (lines 192-371),
    however it ends, leaves the context log as it was, every prompt put to
    the oracle popped again, and leaves the checkpoints, the facts and the
    counters alone; the plan is as it was or is the oracle's answer to the
    prompt that asked for its revision. *)
Theorem decide_pops_what_it_appends :
  forall (E : env) (sn : string) (task : content) (s : state),
    untouched s (out_state (decide E sn task s)) /\
    decide_frame E sn task s (decide E sn task s).
Proof.
  intros E sn task s. split; [|apply decide_plan].
  destruct (decide_events E sn task s) as (evs & _ & H & _). exact H.
Qed.

(** X9. A turn records at most one checkpoint: when it ends, the
    checkpoints are those it started with, or those and one more, or none
    (after a full re-plan). *)
Theorem turn_adds_at_most_one_checkpoint :
  forall (E : env) (sn : string) (task : content) (s : state),
    let s' := out_state (turn E sn task s) in
    _checkpoints s' = _checkpoints s \/
    (exists cp, _checkpoints s' = _checkpoints s ++ [cp]) \/
    _checkpoints s' = [].
Proof.
  intros E sn task s. unfold turn. rewrite bind_modify.
  set (s0 := set_total_turns (total_turns s + 1) s).
  change (_checkpoints s) with (_checkpoints s0). clearbody s0. cbv zeta.
  unfold bind.
  destruct (decide_events E sn task s0) as (evs & _ & (Hc1 & _) & _).
  destruct (decide E sn task s0) as [data s1|s1|r1 s1|e1 s1];
    cbn [out_state] in *; auto.
  pose proof (record_checkpoint_one_more data s1) as H2.
  assert (H2' : _checkpoints (out_state (record_checkpoint data s1))
                = _checkpoints s0 \/
                exists cp, _checkpoints (out_state (record_checkpoint data s1))
                           = _checkpoints s0 ++ [cp]).
  { destruct H2 as [H2|(cp & H2 & _)]; [left|right; exists cp]; congruence. }
  clear H2.
  destruct (record_checkpoint data s1) as [[] s2|s2|r2 s2|e2 s2];
    cbn [out_state] in *; try tauto.
  pose proof (check_stagnation_same_or_cleared E sn s2) as H3.
  assert (H3' : _checkpoints (out_state (check_stagnation E sn s2))
                = _checkpoints s0 \/
                (exists cp, _checkpoints (out_state (check_stagnation E sn s2))
                            = _checkpoints s0 ++ [cp]) \/
                _checkpoints (out_state (check_stagnation E sn s2)) = []).
  { destruct H3 as [H3|H3]; [|tauto]. rewrite H3. tauto. }
  clear H3.
  destruct (check_stagnation E sn s2) as [[] s3|s3|r3 s3|e3 s3];
    cbn [out_state] in *; try exact H3'.
  pose proof (delegate_checkpoints E data s3) as H4. unfold same in H4.
  rewrite H4. exact H3'.
Qed.

(** *** The delegation *)

Lemma find_speaker_first i agents speaker j a :
  find_speaker i agents speaker = Some (j, a) ->
  (i <= j)%nat /\
  nth_error agents (j - i) = Some a /\
  py_eq (JStr (name a)) speaker = true /\
  forall k b, (k < j - i)%nat -> nth_error agents k = Some b ->
              py_eq (JStr (name b)) speaker = false.
Proof.
  revert i. induction agents as [|b rest IH]; intros i; cbn [find_speaker];
    [discriminate|].
  destruct (py_eq (JStr (name b)) speaker) eqn:Hb.
  - intros [= <- <-]. rewrite Nat.sub_diag. repeat split; auto. lia.
  - intros H. destruct (IH _ H) as (Hle & Hn & Ha & Hbefore).
    replace (j - i)%nat with (S (j - S i)) by lia.
    repeat split; auto; [lia|].
    intros [|k] c Hk; cbn [nth_error].
    + now intros [= <-].
    + apply Hbefore. lia.
Qed.

Lemma broadcast_from_skips i agents m out_loud j e :
  In e (broadcast_from i agents m out_loud [j]) ->
  exists k silent, e = ESend m k silent /\ k <> j.
Proof.
  revert i. induction agents as [|a rest IH]; intros i; cbn [broadcast_from];
    [contradiction|].
  rewrite in_app_iff. intros [H|H]; [|eauto].
  cbn [existsb] in H. rewrite orb_false_r in H.
  destruct (Nat.eqb_spec i j); [contradiction|].
  destruct H as [<-|[]]. eauto.
Qed.

(** X10. When the value of [data["next_speaker"]["answer"]] equals the name
    of an agent, the reply is requested once, from the first agent of
    [self._agents] with that name: the instruction is broadcast, the
    instruction and the reply are appended to the context log, the reply is
    sent back to the replier and broadcast to the others, the replier
    excluded. *)
Theorem known_next_speaker_is_asked_once :
  forall (E : env) (data instruction speaker : json) (s : state)
         (i : nat) (a : agent),
    answer data "instruction_or_question" = ok instruction ->
    answer data "next_speaker" = ok speaker ->
    find_speaker 0 (_agents E) speaker = Some (i, a) ->
    let c := Val (none_to_empty instruction) in
    let r := generate_reply E (n_reply s) i in
    let reply := mkMessage "user" (Val r) (name a) in
    exists s',
      delegate E data s = Next tt s' /\
      orchestrated_messages s' =
        orchestrated_messages s ++
        [mkMessage "assistant" c (self_name E); reply] /\
      trace s' =
        trace s ++
        broadcast_from 0 (_agents E) (mkMessage "user" c (self_name E))
          [speaker] [] ++
        [EGenerateReply i r; EAgentSend i reply] ++
        broadcast_from 0 (_agents E) reply [] [i] /\
      replies (trace s') = S (replies (trace s)) /\
      nth_error (_agents E) i = Some a /\
      py_eq (JStr (name a)) speaker = true /\
      (forall k b, (k < i)%nat -> nth_error (_agents E) k = Some b ->
                   py_eq (JStr (name b)) speaker = false) /\
      (forall m silent,
          ~ In (ESend m i silent) (broadcast_from 0 (_agents E) reply [] [i])).
Proof.
  intros E data instruction speaker s i a Hi Hs Hf c r reply.
  destruct (find_speaker_first _ _ _ _ _ Hf) as (_ & Hn & Ha & Hbefore).
  rewrite Nat.sub_0_r in Hn, Hbefore.
  eexists. split.
  { unfold delegate.
    rewrite (bind_eval_ok _ _ _ _ Hi), (bind_eval_ok _ _ _ _ Hs).
    rewrite bind_broadcast. unfold append_message. rewrite bind_modify, Hf.
    rewrite bind_gets, bind_modify, bind_modify, bind_modify.
    reflexivity. }
  cbn [orchestrated_messages trace set_orchestrated_messages emit set_n_reply
       n_reply].
  split; [now rewrite <- app_assoc|].
  split; [now rewrite <- !app_assoc|].
  split.
  { repeat rewrite replies_app. rewrite !replies_broadcast. cbn. lia. }
  repeat split; auto.
  intros m silent Hin.
  destruct (broadcast_from_skips _ _ _ _ _ _ Hin) as (k & sl & Heq & Hk).
  injection Heq as _ <- _. contradiction.
Qed.

Lemma find_speaker_unique i agents (a0 : agent) :
  NoDup (map name agents) ->
  In a0 agents ->
  exists j, find_speaker i agents (JStr (name a0)) = Some (j, a0).
Proof.
  revert i. induction agents as [|b rest IH]; intros i Hnd Hin;
    [contradiction|].
  cbn [find_speaker].
  change (py_eq (JStr (name b)) (JStr (name a0)))
    with (String.eqb (name b) (name a0)).
  cbn [map] in Hnd. inversion Hnd as [|x l Hnotin Hnd']; subst.
  destruct (String.eqb_spec (name b) (name a0)) as [Heq|Hne].
  - destruct Hin as [->|Hin]; [eauto|].
    exfalso. apply Hnotin. rewrite Heq. now apply in_map.
  - destruct Hin as [->|Hin]; [congruence|]. now apply IH.
Qed.

(** X11. When the names of the team are distinct, the speaker the fast path
    forces, the name of the first agent with an execution configuration,
    resolves in the delegation to that very agent, which can execute
    code. *)
Theorem forced_speaker_can_execute :
  forall (E : env) (a0 : agent) (rest : list agent),
    NoDup (map name (_agents E)) ->
    execution_enabled_agents E = a0 :: rest ->
    exists i,
      find_speaker 0 (_agents E) (JStr (name a0)) = Some (i, a0) /\
      code_execution_config_is_dict a0 = true.
Proof.
  intros E a0 rest Hnd Hex.
  assert (Hin : In a0 (execution_enabled_agents E))
    by (rewrite Hex; now left).
  unfold execution_enabled_agents in Hin. apply filter_In in Hin.
  destruct Hin as [Hin Hflag].
  destruct (find_speaker_unique 0 _ _ Hnd Hin) as [i Hi]. eauto.
Qed.

(** *** The exceptions of the loops *)

Lemma py_order_raises strict : forall a b e,
  py_order strict a b = inl e -> e = TypeError.
Proof.
  fix IH 1. intros a b e.
  destruct a as [|x|x|x|xs|xs]; destruct b as [|y|y|y|ys|ys];
    try (cbn; intros [= <-]; reflexivity); try (cbn; discriminate).
  revert ys. induction xs as [|x xs IHxs]; intros [|y ys];
    try (cbn; discriminate).
  change (py_order strict (JArr (x :: xs)) (JArr (y :: ys)))
    with (if py_eq x y then py_order strict (JArr xs) (JArr ys)
          else py_order strict x y).
  destruct (py_eq x y); [apply IHxs | apply IH].
Qed.

Lemma getitem_raises d k e :
  getitem d k = inl e -> data_exception e.
Proof.
  unfold data_exception.
  destruct d; cbn; try (intros [= <-]; auto).
  destruct (assoc k kvs); [discriminate|]. intros [= <-]. auto.
Qed.

Lemma answer_raises d k e :
  answer d k = inl e -> data_exception e.
Proof.
  unfold answer.
  destruct (getitem d k) as [e'|f] eqn:Hg.
  - intros [= <-]. exact (getitem_raises _ _ _ Hg).
  - apply getitem_raises.
Qed.

Lemma setitem_raises d k v e :
  setitem d k v = inl e -> data_exception e.
Proof.
  unfold data_exception. destruct d; cbn; try discriminate;
    intros [= <-]; auto.
Qed.

Lemma non_increasing_raises l e :
  non_increasing l = inl e -> data_exception e.
Proof.
  unfold data_exception.
  induction l as [|a [|b rest] IH]; cbn [non_increasing]; try discriminate.
  destruct (py_ge a b) as [x|[|]] eqn:Hab; try discriminate.
  - intros [= <-]. right. eapply py_order_raises, Hab.
  - exact IH.
Qed.

Lemma last_opt_none {A : Type} (l : list A) : last_opt l = None -> l = [].
Proof. destruct l; [reflexivity | discriminate]. Qed.

(** Closes the leaves of an explored block that end otherwise than by an
    exception, and names the expression that raised in the others. *)
Ltac raised :=
  unfold raises_only; try exact I;
  match goal with
  | H : answer _ _ = inl _ |- _ => exact (answer_raises _ _ _ H)
  | H : setitem _ _ _ = inl _ |- _ => exact (setitem_raises _ _ _ _ H)
  | H : py_gt _ _ = inl _ |- _ =>
      right; exact (py_order_raises _ _ _ _ H)
  end.

Lemma log_kept_refl s : log_kept s s.
Proof. intros H. exact H. Qed.

Lemma log_kept_trans a b c : log_kept a b -> log_kept b c -> log_kept a c.
Proof. unfold log_kept. auto. Qed.

Section LoopExceptions.

Variables (E : env) (sn : string) (task : content).

Lemma decide_raises s :
  orchestrated_messages s <> [] ->
  raises_only data_exception (decide E sn task s).
Proof.
  intros Hlog. unfold decide, fast_path, normal_path.
  explore; try raised.
  - rewrite andb_false_r in Heqb. discriminate.
  - apply last_opt_none in Heqo. contradiction.
Qed.

Lemma record_checkpoint_raises data s :
  raises_only data_exception (record_checkpoint data s).
Proof. unfold record_checkpoint, save_checkpoint. explore; raised. Qed.

Lemma check_stagnation_raises s :
  raises_only loop_exception (check_stagnation E sn s).
Proof.
  unfold check_stagnation, escalate, full_replan, append_message.
  explore; unfold raises_only; try exact I;
    first [ right; reflexivity
          | left;
            match goal with
            | H : non_increasing _ = inl _ |- _ =>
                exact (non_increasing_raises _ _ H)
            | H : answer _ _ = inl _ |- _ => exact (answer_raises _ _ _ H)
            end ].
Qed.

Lemma delegate_raises data s :
  raises_only data_exception (delegate E data s).
Proof. unfold delegate, append_message. explore; raised. Qed.

Lemma check_stagnation_next s s' :
  check_stagnation E sn s = Next tt s' -> s' = s.
Proof.
  unfold check_stagnation, escalate, full_replan, append_message.
  explore; intros H; try discriminate H; now injection H as <-.
Qed.

(** From a state in which no window has been counted, the trend test
    raises [UnboundLocalError] only on a non-improving window. *)
Lemma check_stagnation_unbound s s' :
  fresh s ->
  check_stagnation E sn s = Raise UnboundLocalError s' ->
  stagnant (_checkpoints s') = true /\ times_stalled s' = 1.
Proof.
  intros [Hts Hnone].
  destruct (stagnant (_checkpoints s)) eqn:Hst.
  - rewrite first_window_raises by (auto; lia).
    intros [= <-]. cbn. split; [exact Hst | lia].
  - revert Hst. unfold stagnant, check_stagnation. rewrite bind_gets.
    destruct (3 <=? Z.of_nat (List.length (_checkpoints s))); [|discriminate].
    destruct (non_increasing _) as [e|[|]] eqn:Hn; try discriminate; intros _.
    cbn. intros [= -> _].
    destruct (non_increasing_raises _ _ Hn); discriminate.
Qed.

Lemma delegate_log data : keeps log_kept (delegate E data).
Proof.
  keeps_blocks log_kept_refl log_kept_trans
    ltac:(intros s0; unfold log_kept; cbn;
          first [ intros H; exact H
                | intros _ H; apply app_eq_nil in H; destruct H; discriminate ]).
Qed.

(** A turn that begins with a message in the context log and no window
    counted: what it can raise, and how it leaves the log. *)
Lemma turn_log s :
  orchestrated_messages s <> [] ->
  raises_only loop_exception (turn E sn task s) /\
  (forall s', turn E sn task s = Next tt s' -> orchestrated_messages s' <> []) /\
  (fresh s ->
   forall s', turn E sn task s = Raise UnboundLocalError s' ->
              stagnant (_checkpoints s') = true /\ times_stalled s' = 1).
Proof.
  intros Hlog. unfold turn. rewrite bind_modify.
  set (s0 := set_total_turns (total_turns s + 1) s).
  assert (Hlog0 : orchestrated_messages s0 <> []) by exact Hlog.
  assert (Hts0 : times_stalled s0 = times_stalled s) by reflexivity.
  assert (Hp0 : educated_guess_promt s0 = educated_guess_promt s)
    by reflexivity.
  clearbody s0. unfold bind.
  pose proof (decide_raises s0 Hlog0) as Hr1.
  pose proof (decide_times_stalled E sn task s0) as Hts1.
  pose proof (decide_prompt E sn task s0) as Hp1.
  destruct (decide_events E sn task s0) as (evs & _ & (_ & _ & Hm1 & _) & _).
  unfold same in *.
  destruct (decide E sn task s0) as [data s1|s1|r1 s1|e1 s1];
    cbn [out_state raises_only] in *;
    try (split; [first [exact I | left; exact Hr1]|];
         split; [discriminate|]; intros _ s' [= -> _];
         destruct Hr1; discriminate);
    try (split; [exact I|]; split; [discriminate|]; discriminate).
  pose proof (record_checkpoint_raises data s1) as Hr2.
  pose proof (record_checkpoint_effect data s1) as Hb2.
  pose proof (record_checkpoint_times_stalled data s1) as Hts2.
  pose proof (record_checkpoint_prompt data s1) as Hp2.
  unfold record_checkpoint_post, same in *.
  destruct (record_checkpoint data s1) as [[] s2|s2|r2 s2|e2 s2];
    cbn [out_state raises_only] in *;
    try (split; [first [exact I | left; exact Hr2]|];
         split; [discriminate|]; intros _ s' [= -> _];
         destruct Hr2; discriminate);
    try (split; [exact I|]; split; [discriminate|]; discriminate).
  destruct Hb2 as (cp & _ & _ & _ & _ & Hm2 & _).
  pose proof (check_stagnation_raises s2) as Hr3.
  pose proof (check_stagnation_next s2) as Hn3.
  pose proof (check_stagnation_unbound s2) as Hu3.
  destruct (check_stagnation E sn s2) as [[] s3|s3|r3 s3|e3 s3];
    cbn [raises_only] in *;
    try (split; [exact I|]; split; [discriminate|]; discriminate).
  - rewrite (Hn3 s3 eq_refl).
    pose proof (delegate_raises data s2) as Hr4.
    split; [|split].
    + destruct (delegate E data s2); cbn [raises_only] in *; auto.
      left. exact Hr4.
    + intros s' Hd. pose proof (delegate_log data s2) as Hk.
      rewrite Hd in Hk. apply Hk. congruence.
    + intros _ s' Hd. rewrite Hd in Hr4. destruct Hr4; discriminate.
  - split; [exact Hr3|]. split; [discriminate|].
    intros [Hts Hnone] s' [= -> <-].
    apply Hu3; [|reflexivity]. split; congruence.
Qed.

Lemma step_log_started c : log_started c -> log_started (step E sn task c).
Proof.
  destruct c as [s|s|o s]; cbn [step log_started]; auto.
  - intros Hf. destruct (total_turns s <? max_turns); cbn; [|exact I].
    split; [exact Hf | discriminate].
  - intros [Hf Hlog]. destruct (total_turns s <? max_turns); [|exact Hf].
    destruct (turn_log s Hlog) as (Hr & Hn & Hu).
    destruct (turn_fresh E sn task s Hf) as (_ & Hp & Ht).
    destruct (turn E sn task s) as [[] s1|s1|r s1|e s1];
      cbn [log_started out_state raises_only] in *.
    + split; [split; assumption | now apply Hn].
    + split; assumption.
    + exact I.
    + split; [exact Hr|]. intros ->. now apply Hu.
Qed.

Lemma exec_log_started n c :
  log_started c -> log_started (exec E sn task n c).
Proof.
  revert c. induction n as [|n IH]; intros c Hc; cbn [exec]; auto.
  apply IH, step_log_started, Hc.
Qed.

End LoopExceptions.

Lemma enter_log_started E cps om messages sender sn task s0 n :
  enter E cps om messages sender = inr (sn, task, s0) ->
  log_started (exec E sn task n (AtOuter s0)).
Proof.
  intros He. apply exec_log_started. cbn [log_started].
  revert He. unfold enter. destruct (client_is_none E); [discriminate|].
  destruct (pop _) as [[ms tm]|]; [|discriminate].
  destruct sender; [|discriminate].
  intros [= <- <- <-]. split; reflexivity.
Qed.


(** X13. A run ends with [UnboundLocalError] only on a non-improving
    window: the last three of the checkpoints it ends with do not improve,
    and that window is the first one counted. *)
Theorem unbound_local_error_means_stagnation :
  forall (E : env) (cps : list checkpoint) (om : list message)
         (messages : option (list message)) (sender : option string)
         (s : state),
    run_chat E cps om messages sender = Some (inl UnboundLocalError, s) ->
    stagnant (_checkpoints s) = true /\
    (3 <= List.length (_checkpoints s))%nat /\
    times_stalled s = 1.
Proof.
  intros E cps om messages sender s. unfold run_chat.
  destruct (enter E cps om messages sender) as [[o s0]|[[sn task] s0]] eqn:He.
  - intros [= -> ->]. revert He. unfold enter.
    destruct (client_is_none E); [discriminate|].
    destruct (pop _) as [[ms tm]|]; [destruct sender|]; discriminate.
  - pose proof (enter_log_started _ _ _ _ _ _ _ _ run_fuel He) as H.
    destruct (exec E sn task run_fuel (AtOuter s0)) as [| |o1 s1];
      try discriminate.
    intros [= -> ->]. destruct H as [_ H].
    destruct (H eq_refl) as [Hst Hts].
    split; [exact Hst|]. split; [|exact Hts].
    unfold stagnant in Hst. apply andb_prop in Hst. destruct Hst as [Hl _].
    apply Z.leb_le in Hl. lia.
Qed.

(** *** Answers that do not parse *)

Lemma resets_app a b : resets (a ++ b) = (resets a + resets b)%nat.
Proof. unfold resets. now rewrite filter_app, length_app. Qed.

Lemma resets_broadcast i agents m out_loud exclude :
  resets (broadcast_from i agents m out_loud exclude) = 0%nat.
Proof.
  unfold resets. revert i. induction agents as [|a rest IH]; intros i; cbn; auto.
  rewrite filter_app, length_app, IH.
  now destruct (existsb (Nat.eqb i) exclude).
Qed.

Lemma resets_resets l : resets (map EReset l) = List.length l.
Proof. unfold resets. induction l; cbn; auto. Qed.

Lemma exec_add E sn task n m c :
  exec E sn task (n + m) c = exec E sn task m (exec E sn task n c).
Proof. revert c. induction n as [|n IH]; intros c; cbn [exec Nat.add]; auto. Qed.

Lemma pop_app {A : Type} (l : list A) (x : A) : pop (l ++ [x]) = Some (l, x).
Proof.
  unfold pop.
  assert (H : last_opt (l ++ [x]) = Some x).
  { destruct l as [|a l]; [reflexivity|].
    cbn [app last_opt]. now rewrite last_last. }
  now rewrite H, removelast_last.
Qed.

Section Unparseable.

Variables (E : env) (sn : string) (task : content).
Hypothesis Hall : unparseable E.

Lemma turn_unparseable s :
  orchestrated_messages s <> [] -> turn_abandoned s (turn E sn task s).
Proof.
  intros Hlog. unfold turn, decide, fast_path, normal_path.
  rewrite bind_modify, bind_assoc, bind_gets. norm_goal.
  destruct (last_opt (orchestrated_messages s)) eqn:Hl;
    [|apply last_opt_none in Hl; contradiction].
  destruct (_ && _);
    rewrite !bind_assoc, bind_ask; norm_goal; rewrite Hall, bind_break_now;
    unfold turn_abandoned, abandoned; norm_goal;
    rewrite calls_app, replies_app, resets_app; cbn; repeat split; lia.
Qed.

Lemma round_unparseable s :
  total_turns s < max_turns ->
  exists s',
    step E sn task (step E sn task (AtOuter s)) = AtOuter s' /\
    abandoned (List.length (_agents E)) s s'.
Proof.
  intros Hlt. cbn [step].
  apply Z.ltb_lt in Hlt. rewrite Hlt. cbn [step].
  rewrite round_init_total_turns, Hlt.
  assert (Hlog : orchestrated_messages (round_init E task s) <> [])
    by (cbn; discriminate).
  pose proof (turn_unparseable _ Hlog) as H.
  destruct (turn E sn task (round_init E task s)) as [[] s1|s1|r s1|e s1];
    try contradiction.
  exists s1. split; [reflexivity|].
  destruct H as (Ht & Hc & Hf & Hp & Hr & Hk & Hz).
  unfold abandoned. rewrite Ht, Hc, Hf, Hp, Hr, Hk, Hz.
  unfold round_init. norm_goal.
  rewrite !calls_app, !replies_app, !resets_app.
  rewrite calls_broadcast, replies_broadcast, resets_broadcast.
  destruct (calls_resets (seq 0 (List.length (_agents E)))) as [-> ->].
  rewrite resets_resets, length_seq. repeat split; lia.
Qed.

Lemma rounds_unparseable k : forall s,
  total_turns s = max_turns - Z.of_nat k ->
  exists s',
    exec E sn task (2 * k + 1) (AtOuter s) = Finished (inr BudgetExhausted) s' /\
    total_turns s' = max_turns /\
    _checkpoints s' = _checkpoints s /\
    facts s' = facts s /\ plan s' = plan s /\
    replies (trace s') = replies (trace s) /\
    calls (trace s') = (calls (trace s) + k)%nat /\
    resets (trace s') = (resets (trace s) + k * List.length (_agents E))%nat.
Proof.
  induction k as [|k IH]; intros s Ht.
  - exists s. cbn [Nat.mul Nat.add exec step].
    replace (total_turns s <? max_turns) with false
      by (symmetry; apply Z.ltb_ge; lia).
    repeat split; lia.
  - destruct (round_unparseable s) as (s1 & Hs & Ha); [lia|].
    destruct Ha as (Ht1 & Hc1 & Hf1 & Hp1 & Hr1 & Hk1 & Hz1).
    destruct (IH s1) as (s' & He & Ht' & Hc' & Hf' & Hp' & Hr' & Hk' & Hz');
      [lia|].
    exists s'. split.
    { replace (2 * S k + 1)%nat with (2 + (2 * k + 1))%nat by lia.
      rewrite exec_add. cbn [exec]. rewrite Hs. exact He. }
    rewrite Hc', Hf', Hp', Hr', Hk', Hz', Hc1, Hf1, Hp1, Hr1, Hk1, Hz1.
    repeat split; auto; lia.
Qed.

End Unparseable.

(** X14. When no answer of the oracle parses, every turn is abandoned at
    its first call and begins a new round: the run spends its thirty turns,
    resets every agent thirty times, makes the two calls of the preamble
    and one call a turn, requests no reply, records no checkpoint, and
    leaves by the [return] of line 495. *)
Theorem unparseable_answers_exhaust_the_budget :
  forall (E : env) (cps : list checkpoint) (om messages : list message)
         (task_message : message) (sender_name : string),
    client_is_none E = false ->
    unparseable E ->
    exists s,
      run_chat E cps om (Some (messages ++ [task_message])) (Some sender_name)
        = Some (inr BudgetExhausted, s) /\
      total_turns s = max_turns /\
      _checkpoints s = cps /\
      replies (trace s) = 0%nat /\
      calls (trace s) = 32%nat /\
      resets (trace s) = (30 * List.length (_agents E))%nat.
Proof.
  intros E cps om messages tm sn Hc Hall.
  unfold run_chat, enter. rewrite Hc, pop_app.
  set (s0 := out_state (bootstrap E sn (msg_content tm) messages
                          (initial_state cps om))).
  destruct (rounds_unparseable E sn (msg_content tm) Hall 30 s0 eq_refl)
    as (s' & He & Ht & Hcp & _ & _ & Hr & Hk & Hz).
  exists s'.
  change run_fuel with (2 * 30 + 1 + 2)%nat.
  rewrite exec_add, He, exec_finished.
  split; [reflexivity|]. split; [exact Ht|].
  rewrite Hcp, Hr, Hk, Hz. repeat split; reflexivity.
Qed.

(** *** The preamble *)

(** X15. With a client, [run_chat] raises [IndexError] on an empty list of
    messages and [AttributeError] without a sender, before any call.
    Otherwise the last message, whoever sent it, is taken off as the task,
    the oracle is asked twice, for the fact sheet over the other messages
    and for the plan over those and the fact sheet, and the loops start
    with these two answers; the checkpoints and the context log of an
    earlier call are left as they were. *)
Theorem preamble_asks_twice :
  forall (E : env) (cps : list checkpoint) (om messages : list message)
         (task_message : message) (sender_name : string),
    client_is_none E = false ->
    run_chat E cps om (Some []) (Some sender_name)
      = Some (inl IndexError, initial_state cps om) /\
    run_chat E cps om (Some (messages ++ [task_message])) None
      = Some (inl AttributeError, initial_state cps om) /\
    let task := msg_content task_message in
    let m1 := messages ++ [mkMessage "user" (ClosedBookPrompt task) sender_name] in
    let r1 := oracle E 0 m1 false in
    let m2 := m1 ++ [mkMessage "assistant" (Val (JStr r1)) (self_name E);
                     mkMessage "user" (PlanPrompt (team E)) sender_name] in
    let r2 := oracle E 1 m2 false in
    enter E cps om (Some (messages ++ [task_message])) (Some sender_name)
      = inr (sender_name, task,
             mkState cps om r1 r2 0 0 0 None 2 0
               [ECreate m1 false r1; ECreate m2 false r2]).
Proof.
  intros E cps om messages tm sn Hc.
  unfold run_chat, enter. rewrite Hc, pop_app. cbn [pop last_opt].
  repeat split.
  unfold bootstrap, create, bind, modify, initial_state.
  cbn [n_create set_n_create emit set_facts set_plan out_state trace
       _checkpoints orchestrated_messages facts plan total_turns
       times_stalled stalled_count educated_guess_promt n_reply app].
  rewrite <- app_assoc. reflexivity.
Qed.

(** *** The properties on runs of the scenarios *)

(** X2, on the run of three flat turns. *)
Lemma stalled_count_is_never_negative_witness :
  exists s0,
    enter Scenario.flat_env [] [] (Some Scenario.request) (Some "User"%string)
      = inr ("User"%string, Scenario.task, s0) /\
    0 <= stalled_count
           (config_state
              (exec Scenario.flat_env "User" Scenario.task 7 (AtOuter s0))).
Proof.
  eexists. split; [vm_compute; reflexivity|].
  refine (proj1 (stalled_count_is_never_negative Scenario.flat_env [] []
                   (Some Scenario.request) (Some "User"%string)
                   "User"%string Scenario.task _ 7 _)).
  vm_compute. reflexivity.
Defined.

(** X3, on the run whose first turn reports the request satisfied. *)
Lemma run_with_client_returns_terminate_witness :
  exists s,
    run_chat Scenario.overrated_env [] [] (Some Scenario.request)
      (Some "User"%string) = Some (inr Satisfied, s) /\
    Satisfied <> NoClient /\
    return_value Satisfied = (true, Some "TERMINATE"%string).
Proof.
  eexists. split; [vm_compute; reflexivity|].
  refine (run_with_client_returns_terminate Scenario.overrated_env [] []
            (Some Scenario.request) (Some "User"%string) Satisfied _ _ _).
  - reflexivity.
  - vm_compute. reflexivity.
Defined.

(** X4, on the run of three flat turns. *)
Lemma escalation_is_never_reached_witness :
  exists s,
    run_chat Scenario.flat_env [] [] (Some Scenario.request)
      (Some "User"%string) = Some (inl UnboundLocalError, s) /\
    @inl exc return_site UnboundLocalError <> inr EducatedGuess /\
    (times_stalled s = 0 \/
     (times_stalled s = 1 /\
      @inl exc return_site UnboundLocalError = inl UnboundLocalError)) /\
    educated_guess_promt s = None /\
    exists l, _checkpoints s = [] ++ l.
Proof.
  eexists. split; [vm_compute; reflexivity|].
  refine (escalation_is_never_reached Scenario.flat_env [] []
            (Some Scenario.request) (Some "User"%string) _ _ _).
  vm_compute. reflexivity.
Defined.

(** X5, on the run of two rated turns and twenty-eight abandoned ones. *)
Lemma calls_of_a_run_are_bounded_witness :
  exists s,
    run_chat Scenario.rated_env [] [] (Some Scenario.request)
      (Some "User"%string) = Some (inr BudgetExhausted, s) /\
    Z.of_nat (calls (trace s)) <= 2 + 6 * total_turns s /\
    Z.of_nat (replies (trace s)) <= total_turns s /\
    (calls (trace s) <= 182)%nat /\
    (replies (trace s) <= 30)%nat.
Proof.
  eexists. split; [vm_compute; reflexivity|].
  refine (calls_of_a_run_are_bounded Scenario.rated_env [] []
            (Some Scenario.request) (Some "User"%string) _ _ _).
  vm_compute. reflexivity.
Defined.

(** X10, on the first candidate of the improving run. *)
Lemma known_next_speaker_is_asked_once_witness :
  exists s',
    delegate Scenario.flat_env
      (Scenario.assessment false true 40 "Solver" "First idea.")
      Scenario.round_start = Next tt s' /\
    replies (trace s') = 1%nat.
Proof.
  destruct (known_next_speaker_is_asked_once Scenario.flat_env
              (Scenario.assessment false true 40 "Solver" "First idea.")
              (JStr "First idea.") (JStr "Solver") Scenario.round_start
              0%nat Scenario.solver eq_refl eq_refl eq_refl)
    as (s' & Hd & _ & _ & Hr & _).
  exists s'. split; [exact Hd | exact Hr].
Defined.

(** X11, on the team of a solver and a runner. *)
Lemma forced_speaker_can_execute_witness :
  exists i,
    find_speaker 0 (_agents Scenario.runner_env)
      (JStr (name Scenario.runner)) = Some (i, Scenario.runner) /\
    code_execution_config_is_dict Scenario.runner = true.
Proof.
  refine (forced_speaker_can_execute Scenario.runner_env Scenario.runner []
            _ eq_refl).
  cbn. repeat constructor; cbn; intuition discriminate.
Defined.


(** X13, on the run of three flat turns. *)
Lemma unbound_local_error_means_stagnation_witness :
  exists s,
    run_chat Scenario.flat_env [] [] (Some Scenario.request)
      (Some "User"%string) = Some (inl UnboundLocalError, s) /\
    stagnant (_checkpoints s) = true /\
    (3 <= List.length (_checkpoints s))%nat /\
    times_stalled s = 1.
Proof.
  eexists. split; [vm_compute; reflexivity|].
  refine (unbound_local_error_means_stagnation Scenario.flat_env [] []
            (Some Scenario.request) (Some "User"%string) _ _).
  vm_compute. reflexivity.
Defined.

(** X14, on the run whose every answer is text that does not parse. *)
Lemma unparseable_answers_exhaust_the_budget_witness :
  exists s,
    run_chat Scenario.garbled_env [] [] (Some ([] ++ Scenario.request))
      (Some "User"%string) = Some (inr BudgetExhausted, s) /\
    total_turns s = max_turns /\
    _checkpoints s = [] /\
    replies (trace s) = 0%nat /\
    calls (trace s) = 32%nat /\
    resets (trace s) = (30 * List.length (_agents Scenario.garbled_env))%nat.
Proof.
  apply (unparseable_answers_exhaust_the_budget Scenario.garbled_env [] [] []
           (mkMessage "user" Scenario.task "User") "User"%string).
  - reflexivity.
  - intros n messages json_format. destruct n; reflexivity.
Defined.

(** X15, on the request of the scenarios. *)
Lemma preamble_asks_twice_witness :
  run_chat Scenario.flat_env [] [] (Some []) (Some "User"%string)
    = Some (inl IndexError, initial_state [] []) /\
  run_chat Scenario.flat_env [] [] (Some Scenario.request) None
    = Some (inl AttributeError, initial_state [] []).
Proof.
  destruct (preamble_asks_twice Scenario.flat_env [] [] []
              (mkMessage "user" Scenario.task "User") "User"%string eq_refl)
    as (H1 & H2 & _).
  split; [exact H1 | exact H2].
Defined.

(** X6, on three checkpoints rated 50 and on no checkpoint at all. *)
Lemma stagnation_is_a_window_of_three_witness :
  stagnant ([] ++ [mkCheckpoint "plan" (JInt 50) (JStr "Try again.");
                   mkCheckpoint "plan" (JInt 50) (JStr "Try again.");
                   mkCheckpoint "plan" (JInt 50) (JStr "Try again.")])
    = (50 <=? 50) && (50 <=? 50) /\
  stagnant [] = false.
Proof.
  destruct (stagnation_is_a_window_of_three [] "plan" "plan" "plan"
              (JStr "Try again.") (JStr "Try again.") (JStr "Try again.")
              50 50 50) as [H1 H2].
  split; [exact H1 | apply H2; cbn; lia].
Defined.
